(** * GoBlog: the ActivityPub federation engine

    A shallow embedding of the federation code of GoBlog (the inbox handler,
    the remote actor resolver, the follower registry, signed delivery and the
    content hooks), and the properties its specification states about it.

    Go code that talks to the outside (the HTTP client, the database, the
    JSON codec, the HTML parser, the signer, the clock) is run against an
    explicit environment of oracles; the effects the code has on the outside
    are recorded, in order, in a trace of events. A Go panic (a failed type
    assertion, a nil pointer dereference) is an outcome of its own. *)

From Stdlib Require Import ZArith List Ascii.
From stdpp Require Import base option gmap strings list fin_maps pretty.

Set Warnings "-register-all".

Open Scope string_scope.
Open Scope Z_scope.

(** ** Loosely typed documents *)

(** What the JSON codec decodes into an [interface{}]: nil, bool, number,
    string, slice, or a map from strings to further values. The payload of
    a number is never looked at by the engine; it carries the literal. *)
Inductive value : Type :=
| VNil
| VBool (b : bool)
| VNum (literal : string)
| VStr (s : string)
| VArr (items : list value)
| VMap (fields : gmap string value).

(** [map[string]interface{}] *)
Abbreviation document := (gmap string value).

(** [v.(string)] in its comma-ok form. *)
Definition asString (v : option value) : option string :=
  match v with
  | Some (VStr s) => Some s
  | _ => None
  end.

(** [v.(map[string]interface{})] in its comma-ok form. *)
Definition asMap (v : option value) : option document :=
  match v with
  | Some (VMap m) => Some m
  | _ => None
  end.

(** [s == v] for a string [s] and an interface value [v]: true when [v]
    holds a string and the strings are equal. An absent key reads as nil. *)
Definition eqStringIface (s : string) (v : option value) : bool :=
  match v with
  | Some (VStr t) => bool_decide (s = t)
  | _ => false
  end.

(** [s, ok := v.(string)]: the zero value comes with [ok = false]. *)
Definition commaOkString (v : option value) : string * bool :=
  match v with
  | Some (VStr s) => (s, true)
  | _ => ("", false)
  end.

(** [strings.Contains s sub] *)
Fixpoint Contains (s sub : string) : bool :=
  String.prefix sub s ||
  match s with
  | EmptyString => false
  | String _ rest => Contains rest sub
  end.

(** [len(s) > 0] *)
Definition nonEmpty (s : string) : bool :=
  match s with
  | EmptyString => false
  | String _ _ => true
  end.

(** ** Configuration, requests and errors *)

Module configBlog.
Record t : Type := { Path : string }.
End configBlog.

(** [asPerson], as far as the engine reads it: the [id] and the [inbox] of
    a remote actor document. *)
Module asPerson.
Record t : Type := { ID : string; Inbox : string }.
End asPerson.

Module post.
Record t : Type := {
  Path : string;
  Published : string;
  Parameters : gmap string (list string);
  Blog : string
}.
End post.

(** What [toASNote] hands back, as far as the hooks use it: the note's
    [Published] field and the note as the object of an activity. *)
Module asNote.
Record t : Type := { Published : string; object : value }.
End asNote.

(** [appConfig], with the constant [asContext] and the rendering of a post
    as a note, both declared outside the files at hand. *)
Record Config : Type := {
  PublicAddress : string;
  Blogs : gmap string configBlog.t;
  ActivityPubEnabled : bool;
  asContext : string;
  toASNote : post.t -> asNote.t
}.

Definition contentTypeAS : string := "application/activity+json".
Definition charsetUtf8Suffix : string := "; charset=utf-8".
Definition contentTypeASUTF8 : string := contentTypeAS ++ charsetUtf8Suffix.
Definition contentType : string := "Content-Type".

Record request : Type := {
  Method : string;
  URL : string;
  Header : list (string * string);
  Body : string
}.

Record response : Type := { StatusCode : Z; ResponseBody : string }.

(** Go [error] values, by where they arise. [StatusError] is the error
    built by [fmt.Errorf("signed request failed with status %d: %s")]. *)
Inductive error : Type :=
| UrlError (msg : string)
| TransportError (msg : string)
| DecodeError (msg : string)
| MarshalError (msg : string)
| SigningError (msg : string)
| StoreError (msg : string)
| StatusError (status : Z) (body : string).

(** The error classes of the specification. *)
Inductive errorClass : Type :=
| NetworkFailure | RemoteRejected | ParseFailure
| SerializationFailure | SigningFailure | StoreFailure | InvalidTarget.

Definition classOf (e : error) : errorClass :=
  match e with
  | UrlError _ => InvalidTarget
  | TransportError _ => NetworkFailure
  | DecodeError _ => ParseFailure
  | MarshalError _ => SerializationFailure
  | SigningError _ => SigningFailure
  | StoreError _ => StoreFailure
  | StatusError _ _ => RemoteRejected
  end.

(** The result of a call into a library that either yields or fails with
    a message. *)
Inductive result (A : Type) : Type :=
| Ok (a : A)
| Err (msg : string).
Arguments Ok {A} a.
Arguments Err {A} msg.

(** The statements the engine runs on the follower table. *)
Inductive stmt : Type :=
| InsertOrReplace (blog follower inbox : string)
| DeleteFollower (blog follower : string).

(** A parsed HTML document of the webmention library, as far as the engine
    reads it. *)
Module Document.
Record t : Type := { ExternalLinks : list string }.
End Document.

(** What the rows of a query do while they are read, row by row, counted
    from zero: [rows.Next()] can give up before a row (an error the engine
    never reads back), [rows.Scan] can fail on a row. The rows come in an
    order of the store's choosing, given by picks. *)
Record cursor : Type := {
  rowPicks : list nat;
  nextStops : nat -> bool;
  scanFails : nat -> option string
}.

(** A list in the order of some picks: each pick takes one of the elements
    that are left, the elements left when the picks run out follow as they
    stand. Every order of the elements is that of some picks, and no picks
    give anything but an order of the elements. *)
Fixpoint inOrder {A : Type} (picks : list nat) (l : list A) : list A :=
  match picks, l with
  | pick :: picks', x :: l' =>
      let i := (pick mod length l)%nat in
      match l !! i with
      | Some chosen => chosen :: inOrder picks' (delete i l)
      | None => l
      end
  | _, _ => l
  end.

(** The outside world during one request or one hook. *)
Record Env : Type := {
  (** [json.NewDecoder(r.Body).Decode(&activity)] *)
  jsonDecodeActivity : string -> result document;
  (** [json.NewDecoder(resp.Body).Decode(actor)] *)
  jsonDecodePerson : string -> result asPerson.t;
  (** [json.Marshal(activity)] *)
  jsonMarshal : value -> result string;
  (** [url.Parse], yielding the host; [http.NewRequest] fails when it does *)
  urlParse : string -> result string;
  (** [http.DefaultClient.Do]: Go's pair of a response and an error *)
  clientDo : request -> option response * option string;
  (** [apPostSigner.SignRequest(apPrivateKey, keyId, r, body)]: the headers
      the signer adds to the request *)
  signRequest : string -> request -> string -> result (list (string * string));
  (** whether the store fails a statement, and with what *)
  dbExec : stmt -> option string;
  (** whether the store fails a query for the followers of a blog *)
  dbQuery : string -> option string;
  (** how the rows of an answered query for the followers of a blog are
      read *)
  dbRows : string -> cursor;
  (** the order in which a [range] goes over a map *)
  rangePicks : list nat;
  (** [webmention.DocumentFromReader(ctx, reader, id)] *)
  DocumentFromReader : string -> string -> option Document.t * option string;
  generateRandomString : nat -> string;
  (** [time.Now().UTC().Format("Mon, 02 Jan 2006 15:04:05")] *)
  now : string
}.

(** An inbox submission: the [{blog}] parameter of the path and the body. *)
Record inboxRequest : Type := { blogParam : string; requestBody : string }.

(** What a handler writes: the status and, for [http.Error], the message. *)
Record httpReply : Type := { status : Z; message : string }.

(** ** State and effects *)

(** What the engine does to the outside, in the order it does it. *)
Inductive event : Type :=
| EvLog (line : string)
| EvHttp (r : request)
| EvDbExec (s : stmt) (failure : option string)
| EvDbQuery (blog : string) (failure : option string)
| EvWebmention (source target : string)
| EvNotification (text : string)
| EvGo (blog : option configBlog.t) (activity : value) (inbox : string).

(** Modelled from the spec: the table [activitypub_followers], whose
    declaration is outside the files at hand: rows (site identity,
    follower actor IRI, follower inbox IRI), unique on (site, actor IRI). *)
Abbreviation registry := (gmap (string * string) string).

Record State : Type := {
  followers : registry;
  trace : list event
}.

Inductive outcome (A : Type) : Type :=
| Returned (a : A)
| Panicked.
Arguments Returned {A} a.
Arguments Panicked {A}.

Definition M (A : Type) : Type := State -> outcome A * State.

#[global] Instance M_ret : MRet M := fun A a st => (Returned a, st).
#[global] Instance M_bind : MBind M := fun A B f m st =>
  match m st with
  | (Returned a, st') => f a st'
  | (Panicked, st') => (Panicked, st')
  end.

Definition panic {A : Type} : M A := fun st => (Panicked, st).

Definition emit (e : event) : M unit := fun st =>
  (Returned tt, {| followers := followers st; trace := trace st ++ [e] |}).

Definition getFollowers : M registry := fun st => (Returned (followers st), st).

Definition setFollowers (r : registry) : M unit := fun st =>
  (Returned tt, {| followers := r; trace := trace st |}).

(** Reading a field through a pointer: nil panics. *)
Definition deref {A : Type} (p : option A) : M A :=
  match p with
  | Some a => mret a
  | None => panic
  end.

(** [v.(string)] without the comma-ok form: panics unless [v] holds a
    string. *)
Definition assertString (v : option value) : M string :=
  match v with
  | Some (VStr s) => mret s
  | _ => panic
  end.

Definition logPrintln (line : string) : M unit := emit (EvLog line).

(** [err.Error()] *)
Definition Error (e : error) : string :=
  match e with
  | UrlError msg | TransportError msg | DecodeError msg
  | MarshalError msg | SigningError msg | StoreError msg => msg
  | StatusError code body =>
      "signed request failed with status " ++ pretty code ++ ": " ++ body
  end.

Definition newline : string := String (Ascii.ascii_of_nat 10) "".

(** What a statement that is carried out makes of the table. *)
Definition carryOut (s : stmt) (rows : registry) : registry :=
  match s with
  | InsertOrReplace blog follower inbox => <[(blog, follower) := inbox]> rows
  | DeleteFollower blog follower => delete (blog, follower) rows
  end.

(** ** The engine *)

Section Engine.

Variable cfg : Config.
Variable env : Env.

(** [func (b *configBlog) apIri() string] *)
Definition apIri (b : configBlog.t) : string :=
  PublicAddress cfg ++ configBlog.Path b.

(** [func apRequestIsSuccess(code int) bool] *)
Definition apRequestIsSuccess (code : Z) : bool :=
  (code =? 200) || (code =? 201) || (code =? 202) || (code =? 204).

(** [r.Header.Add] over the headers handed over. *)
Definition withHeaders (r : request) (more : list (string * string)) : request :=
  {| Method := Method r; URL := URL r; Header := Header r ++ more; Body := Body r |}.

(** [http.DefaultClient.Do(req)] *)
Definition Do (req : request) : M (option response * option string) :=
  _ ← emit (EvHttp req);
  mret (clientDo env req).

(** Modelled from the spec: [appDbExec], which is outside the files at
    hand, on the follower table: a statement is atomic at the store level;
    it is either carried out (insert-or-replace is an upsert on the key
    (site, actor IRI), delete removes the row of the key if there is one)
    or fails with a store failure and leaves the table as it was. *)
Definition appDbExec (s : stmt) : M (option error) :=
  _ ← emit (EvDbExec s (dbExec env s));
  match dbExec env s with
  | Some msg => mret (Some (StoreError msg))
  | None =>
      rows ← getFollowers;
      _ ← setFollowers (carryOut s rows);
      mret None
  end.

(** The request [apGetRemoteActor] builds. *)
Definition actorRequest (iri : string) : request :=
  {| Method := "GET"; URL := iri;
     Header := [("Accept", contentTypeAS); ("User-Agent", "GoBlog")];
     Body := "" |}.

(** [func apGetRemoteActor(iri string)], returning a pointer to an
    [asPerson] and an error. *)
Definition apGetRemoteActor (iri : string) : M (option asPerson.t * option error) :=
  match urlParse env iri with
  | Err msg => mret (None, Some (UrlError msg))
  | Ok _ =>
      '(resp, err) ← Do (actorRequest iri);
      match err with
      | Some msg => mret (None, Some (TransportError msg))
      | None =>
          r ← deref resp;
          if negb (apRequestIsSuccess (StatusCode r))
          then mret (None, TransportError <$> err)
          else
            match jsonDecodePerson env (ResponseBody r) with
            | Err msg => mret (None, Some (DecodeError msg))
            | Ok actor => mret (Some actor, None)
            end
      end
  end.

(** [func apAddFollower(blog, follower, inbox string) error] *)
Definition apAddFollower (blog follower inbox : string) : M (option error) :=
  appDbExec (InsertOrReplace blog follower inbox).

(** [func apRemoveFollower(blog, follower string) error] *)
Definition apRemoveFollower (blog follower : string) : M (option error) :=
  appDbExec (DeleteFollower blog follower).

(** The rows that the query of [apGetAllFollowers] selects, follower and
    inbox of every row of the blog; unique on the follower, they are a map. *)
Definition followersOf (blog : string) (rows : registry) : gmap string string :=
  list_to_map
    (omap (fun row : string * string * string =>
             if bool_decide (row.1.1 = blog) then Some (row.1.2, row.2) else None)
          (map_to_list rows)).

(** The loop of [apGetAllFollowers] over the rows, [i] rows read before:
    it ends when [rows.Next()] is false, with no row left or after an
    error that is not read back; a [rows.Scan] that fails ends it with the
    error and no map. *)
Fixpoint scanRows (c : cursor) (i : nat) (rows : list (string * string))
    (followers : gmap string string) : gmap string string * option error :=
  match rows with
  | [] => (followers, None)
  | (follower, inbox) :: rest =>
      if nextStops c i then (followers, None)
      else
        match scanFails c i with
        | Some msg => (∅, Some (StoreError msg))
        | None => scanRows c (S i) rest (<[follower := inbox]> followers)
        end
  end.

(** [func apGetAllFollowers(blog string) (map[string]string, error)] *)
Definition apGetAllFollowers (blog : string) : M (gmap string string * option error) :=
  _ ← emit (EvDbQuery blog (dbQuery env blog));
  match dbQuery env blog with
  | Some msg => mret (∅, Some (StoreError msg))
  | None =>
      rows ← getFollowers;
      let selected :=
        inOrder (rowPicks (dbRows env blog)) (map_to_list (followersOf blog rows)) in
      mret (scanRows (dbRows env blog) 0 selected ∅)
  end.

(** The request [apSendSigned] builds, before it is signed. *)
Definition deliveryRequest (to host body : string) : request :=
  {| Method := "POST"; URL := to;
     Header := [("Accept-Charset", "utf-8");
                ("Date", now env ++ " GMT");
                ("User-Agent", "GoBlog");
                ("Accept", contentTypeASUTF8);
                (contentType, contentTypeASUTF8);
                ("Host", host)];
     Body := body |}.

(** [func apSendSigned(blog *configBlog, activity interface{}, to string) error] *)
Definition apSendSigned (blog : option configBlog.t) (activity : value) (to : string)
  : M (option error) :=
  match jsonMarshal env activity with
  | Err msg => mret (Some (MarshalError msg))
  | Ok body =>
  match urlParse env to with
  | Err msg => mret (Some (UrlError msg))
  | Ok _ =>
  match urlParse env to with
  | Err msg => mret (Some (UrlError msg))
  | Ok host =>
      let r := deliveryRequest to host body in
      b ← deref blog;
      match signRequest env (apIri b ++ "#main-key") r body with
      | Err msg => mret (Some (SigningError msg))
      | Ok signature =>
          '(resp, err) ← Do (withHeaders r signature);
          rsp ← deref resp;
          if negb (apRequestIsSuccess (StatusCode rsp))
          then mret (Some (StatusError (StatusCode rsp) (ResponseBody rsp)))
          else mret (TransportError <$> err)
      end
  end end end.

(** The inboxes of a map of followers, one for each follower. *)
Definition inboxes (followers : gmap string string) : list string :=
  (map_to_list followers).*2.

(** The inboxes in the order in which [apSendTo] ranges over the map. *)
Definition ranged (followers : gmap string string) : list string :=
  (inOrder (rangePicks env) (map_to_list followers)).*2.

(** [func apSendTo(blog *configBlog, activity interface{}, followers map[string]string)]:
    one detached delivery per follower inbox. *)
Definition apSendTo (blog : option configBlog.t) (activity : value)
    (followers : gmap string string) : M unit :=
  foldr (fun inbox rest => _ ← emit (EvGo blog activity inbox); rest)
        (mret tt) (ranged followers).

(** [func apSendToAllFollowers(blog string, activity interface{})] *)
Definition apSendToAllFollowers (blog : string) (activity : value) : M unit :=
  '(followers, err) ← apGetAllFollowers blog;
  match err with
  | Some e => logPrintln ("Failed to retrieve followers: " ++ Error e)
  | None => apSendTo (Blogs cfg !! blog) activity followers
  end.

(** [func apNewID(blog *configBlog) (hash string, url string)]: the hash
    is the zero value of its named result. *)
Definition apNewID (blog : option configBlog.t) : M (string * string) :=
  b ← deref blog;
  mret ("", apIri b ++ generateRandomString env 16).

(** [func apAccept(blogName string, blog *configBlog, follow map[string]interface{})] *)
Definition apAccept (blogName : string) (blog : option configBlog.t) (follow : document)
  : M unit :=
  newFollower ← assertString (follow !! "actor");
  _ ← logPrintln ("New follow request: " ++ newFollower);
  if eqStringIface newFollower (follow !! "object")
  then mret tt
  else
    '(follower, err) ← apGetRemoteActor newFollower;
    match err with
    | Some _ => logPrintln ("Failed to retrieve remote actor info: " ++ newFollower)
    | None =>
        f ← deref follower;
        _ ← apAddFollower blogName (asPerson.ID f) (asPerson.Inbox f);
        let follow := delete "@context" follow in
        let accept : document := <["@context" := VStr (asContext cfg)]> ∅ in
        let accept := <["to" := default VNil (follow !! "actor")]> accept in
        '(_, id) ← apNewID blog;
        let accept := <["id" := VStr id]> accept in
        b ← deref blog;
        let accept := <["actor" := VStr (apIri b)]> accept in
        let accept := <["object" := VMap follow]> accept in
        let accept := <["type" := VStr "Accept"]> accept in
        err ← apSendSigned blog (VMap accept) (asPerson.Inbox f);
        match err with
        | Some e =>
            logPrintln ("Failed to accept: " ++ asPerson.ID f ++ newline
                        ++ Error e ++ newline)
        | None => logPrintln ("Follower accepted: " ++ asPerson.ID f)
        end
    end.

(** [createWebmention(source, target)], the call into the citation store. *)
Definition createWebmention (source target : string) : M unit :=
  emit (EvWebmention source target).

(** [sendNotification(text)] *)
Definition sendNotification (text : string) : M unit :=
  emit (EvNotification text).

(** The loop over [doc.ExternalLinks()] in the Create branch. *)
Definition mentionLinks (id blogIri : string) (links : list string) : M unit :=
  foldr (fun link rest =>
           _ ← (if Contains link blogIri then createWebmention id link else mret tt);
           rest)
        (mret tt) links.

(** The switch of [apHandleInbox] on [activity["type"]]. In the Create
    branch [doc.ExternalLinks()] reads the document it is called on: on a
    nil document it panics. *)
Definition dispatch (blogName : string) (blog : configBlog.t) (activity : document)
  : M unit :=
  let blogIri := apIri blog in
  let type := activity !! "type" in
  if eqStringIface "Follow" type then
    apAccept blogName (Some blog) activity
  else if eqStringIface "Undo" type then
    match asMap (activity !! "object") with
    | Some object =>
        match asString (object !! "type") with
        | Some objectType =>
            if bool_decide (objectType = "Follow") then
              match asString (object !! "actor") with
              | Some iri =>
                  if eqStringIface iri (activity !! "actor")
                  then _ ← apRemoveFollower blogName iri; mret tt
                  else mret tt
              | None => mret tt
              end
            else mret tt
        | None => mret tt
        end
    | None => mret tt
    end
  else if eqStringIface "Create" type then
    match asMap (activity !! "object") with
    | Some object =>
        let '(inReplyTo, hasReplyToString) := commaOkString (object !! "inReplyTo") in
        let '(id, hasID) := commaOkString (object !! "id") in
        if hasReplyToString && hasID && nonEmpty inReplyTo && nonEmpty id
           && Contains inReplyTo blogIri
        then createWebmention id inReplyTo
        else
          let '(content, hasContent) := commaOkString (object !! "content") in
          if hasContent && hasID && nonEmpty id then
            let '(doc, err) := DocumentFromReader env content id in
            match err with
            | Some _ =>
                d ← deref doc;
                mentionLinks id blogIri (Document.ExternalLinks d)
            | None => mret tt
            end
          else mret tt
    | None => mret tt
    end
  else if eqStringIface "Delete" type then
    mret tt
  else if eqStringIface "Block" type then
    let '(object, ok) := commaOkString (activity !! "object") in
    if ok && nonEmpty object && eqStringIface object (activity !! "actor")
    then _ ← apRemoveFollower blogName object; mret tt
    else mret tt
  else if eqStringIface "Like" type then
    let '(likeActor, likeActorOk) := commaOkString (activity !! "actor") in
    let '(likeObject, likeObjectOk) := commaOkString (activity !! "object") in
    if likeActorOk && likeObjectOk && nonEmpty likeActor && nonEmpty likeObject
       && Contains likeObject blogIri
    then sendNotification (likeActor ++ " liked " ++ likeObject)
    else mret tt
  else if eqStringIface "Announce" type then
    let '(announceActor, announceActorOk) := commaOkString (activity !! "actor") in
    let '(announceObject, announceObjectOk) := commaOkString (activity !! "object") in
    if announceActorOk && announceObjectOk && nonEmpty announceActor
       && nonEmpty announceObject && Contains announceObject blogIri
    then sendNotification (announceActor ++ " announced " ++ announceObject)
    else mret tt
  else mret tt.

(** [func apHandleInbox(w http.ResponseWriter, r *http.Request)] *)
Definition apHandleInbox (r : inboxRequest) : M httpReply :=
  let blogName := blogParam r in
  match Blogs cfg !! blogName with
  | None => mret {| status := 404; message := "Inbox not found" |}
  | Some blog =>
      match jsonDecodeActivity env (requestBody r) with
      | Err _ => mret {| status := 400; message := "Failed to decode body" |}
      | Ok activity =>
          _ ← dispatch blogName blog activity;
          mret {| status := 201; message := "" |}
      end
  end.

(** The [middleware.Recoverer] the router puts around every handler: a
    panic of the handler is answered with status 500. *)
Definition Recoverer (h : M httpReply) : M httpReply := fun st =>
  match h st with
  | (Returned reply, st') => (Returned reply, st')
  | (Panicked, st') => (Returned {| status := 500; message := "" |}, st')
  end.

(** Modelled from the spec: [firstParameter], which is outside the files
    at hand: the first value the content item lists for the parameter, the
    empty string when it lists none (an item with no section belongs to no
    federated-visible section). *)
Definition firstParameter (p : post.t) (parameter : string) : string :=
  match post.Parameters p !! parameter with
  | Some (v :: _) => v
  | _ => ""
  end.

(** [appConfig.Blogs[p.Blog].apIri()] *)
Definition blogIriOf (p : post.t) : M string :=
  b ← deref (Blogs cfg !! post.Blog p);
  mret (apIri b).

(** [func (p *post) apPost()] *)
Definition apPost (p : post.t) : M unit :=
  if negb (ActivityPubEnabled cfg) then mret tt
  else if bool_decide (post.Published p = "")
          || bool_decide (firstParameter p "section" = "")
  then mret tt
  else
    let n := toASNote cfg p in
    let createActivity : document := <["@context" := VStr (asContext cfg)]> ∅ in
    actor ← blogIriOf p;
    let createActivity := <["actor" := VStr actor]> createActivity in
    let createActivity :=
      <["id" := VStr (PublicAddress cfg ++ post.Path p)]> createActivity in
    let createActivity := <["published" := VStr (asNote.Published n)]> createActivity in
    let createActivity := <["type" := VStr "Create"]> createActivity in
    let createActivity := <["object" := asNote.object n]> createActivity in
    apSendToAllFollowers (post.Blog p) (VMap createActivity).

(** [func (p *post) apUpdate()] *)
Definition apUpdate (p : post.t) : M unit :=
  if negb (ActivityPubEnabled cfg) then mret tt
  else if bool_decide (post.Published p = "")
          || bool_decide (firstParameter p "section" = "")
  then mret tt
  else
    let n := toASNote cfg p in
    let updateActivity : document := <["@context" := VStr (asContext cfg)]> ∅ in
    actor ← blogIriOf p;
    let updateActivity := <["actor" := VStr actor]> updateActivity in
    let updateActivity :=
      <["id" := VStr (PublicAddress cfg ++ post.Path p)]> updateActivity in
    let updateActivity := <["type" := VStr "Update"]> updateActivity in
    let updateActivity := <["object" := asNote.object n]> updateActivity in
    apSendToAllFollowers (post.Blog p) (VMap updateActivity).

(** [func (p *post) apDelete()] *)
Definition apDelete (p : post.t) : M unit :=
  if negb (ActivityPubEnabled cfg) then mret tt
  else
    let deleteActivity : document := <["@context" := VStr (asContext cfg)]> ∅ in
    actor ← blogIriOf p;
    let deleteActivity := <["actor" := VStr actor]> deleteActivity in
    let deleteActivity :=
      <["id" := VStr (PublicAddress cfg ++ post.Path p ++ "#delete")]> deleteActivity in
    let deleteActivity := <["type" := VStr "Delete"]> deleteActivity in
    let tombstone : document :=
      <["type" := VStr "Tombstone"]>
        (<["id" := VStr (PublicAddress cfg ++ post.Path p)]> ∅) in
    let deleteActivity := <["object" := VMap tombstone]> deleteActivity in
    apSendToAllFollowers (post.Blog p) (VMap deleteActivity).

End Engine.


(** ** Observations *)

(** The state after some further events, the registry untouched. *)
Definition record (st : State) (new : list event) : State :=
  {| followers := followers st; trace := trace st ++ new |}.

(** An outbound POST: in the handling of a Follow, the sending of the
    Accept. *)
Definition isPost (ev : event) : bool :=
  match ev with
  | EvHttp r => bool_decide (Method r = "POST")
  | _ => false
  end.

Definition isLog (ev : event) : bool :=
  match ev with
  | EvLog _ => true
  | _ => false
  end.

(** The citations the loop over the links records. *)
Definition mentions (id blogIri : string) (links : list string) : list event :=
  map (EvWebmention id) (List.filter (λ link, Contains link blogIri) links).

(** What one submission to the inbox of a site can make of the registry:
    nothing, the upsert of a resolved actor, or the removal of a follower. *)
Definition step (env : Env) (blogName : string) (rows rows' : registry) : Prop :=
  rows' = rows
  ∨ (∃ p body, jsonDecodePerson env body = Ok p
       ∧ rows' = <[(blogName, asPerson.ID p) := asPerson.Inbox p]> rows)
  ∨ (∃ follower, rows' = delete (blogName, follower) rows).



(** ** Concrete worlds *)

Module Scenario.

Definition site : Config := {|
  PublicAddress := "https://site";
  Blogs := {[ "main" := {| configBlog.Path := "/blog" |} ]};
  ActivityPubEnabled := true;
  asContext := "https://www.w3.org/ns/activitystreams";
  toASNote := fun p =>
    {| asNote.Published := post.Published p;
       asNote.object := VMap {[ "id" := VStr ("https://site" ++ post.Path p) ]} |}
|}.

(** A world for one submission: what the body decodes to, what the one
    GET and the one POST of the request come back with, what the fetched
    body decodes to, whether the store fails, what the HTML parser
    yields. *)
Definition world
    (activity : result document)
    (got posted : option response * option string)
    (person : result asPerson.t)
    (store : option string)
    (parsed : option Document.t * option string) : Env := {|
  jsonDecodeActivity := fun _ => activity;
  jsonDecodePerson := fun _ => person;
  jsonMarshal := fun _ => Ok "{}";
  urlParse := fun _ => Ok "remote";
  clientDo := fun r => if bool_decide (Method r = "GET") then got else posted;
  signRequest := fun keyId _ _ => Ok [("Signature", "keyId=" ++ keyId)];
  dbExec := fun _ => store;
  dbQuery := fun _ => None;
  dbRows := fun _ => {| rowPicks := []; nextStops := fun _ => false;
                        scanFails := fun _ => None |};
  rangePicks := [];
  DocumentFromReader := fun _ _ => parsed;
  generateRandomString := fun _ => "0123456789abcdef";
  now := "Sat, 31 Oct 2026 12:00:00"
|}.

Definition ok (code : Z) (body : string) : option response * option string :=
  (Some {| StatusCode := code; ResponseBody := body |}, None).

Definition unreachable : option response * option string :=
  (None, Some "dial tcp: connection refused").

Definition main : configBlog.t := {| configBlog.Path := "/blog" |}.

Definition alice : asPerson.t :=
  {| asPerson.ID := "https://remote/alice"; asPerson.Inbox := "https://remote/alice/inbox" |}.


(** The actor document fetched at Alice's IRI names another id. *)
Definition moved : asPerson.t :=
  {| asPerson.ID := "https://elsewhere/alice";
     asPerson.Inbox := "https://elsewhere/alice/inbox" |}.

Definition noLinks : option Document.t * option string :=
  (Some {| Document.ExternalLinks := [] |}, None).

(** The HTML of a note that links to a post of the blog parses, and the
    link is among its external links. *)
Definition linksToBlog : option Document.t * option string :=
  (Some {| Document.ExternalLinks := ["https://site/blog/posts/42"] |}, None).

(** A Create that mentions a post of the blog in its content. *)
Definition mention : document :=
  {[ "type" := VStr "Create"; "actor" := VStr "https://remote/alice";
     "object" := VMap {[ "id" := VStr "https://remote/notes/1";
                         "content" := VStr "<a href=https://site/blog/posts/42>42</a>" ]} ]}.

(** A draft: no publish timestamp, no section. *)
Definition draft : post.t :=
  {| post.Path := "/blog/drafts/1"; post.Published := "";
     post.Parameters := ∅; post.Blog := "main" |}.

Definition start : State := {| followers := ∅; trace := [] |}.

Definition toMain : inboxRequest := {| blogParam := "main"; requestBody := "{...}" |}.

(** A Follow whose actor is its own object. *)
Definition followSelf : document :=
  {[ "type" := VStr "Follow"; "actor" := VStr "https://remote/alice";
     "object" := VStr "https://remote/alice" ]}.

(** Alice takes her Follow back. *)
Definition undoAlice : document :=
  {[ "type" := VStr "Undo"; "actor" := VStr "https://remote/alice";
     "object" := VMap {[ "type" := VStr "Follow";
                         "actor" := VStr "https://remote/alice";
                         "object" := VStr "https://site/blog" ]} ]}.

(** The registry once Alice follows the blog. *)
Definition followed : State :=
  {| followers := {[ ("main", "https://remote/alice") := "https://remote/alice/inbox" ]};
     trace := [] |}.

Definition followAlice : document :=
  {[ "type" := VStr "Follow"; "actor" := VStr "https://remote/alice";
     "object" := VStr "https://site/blog" ]}.

End Scenario.

(** ** Account discovery *)

(** [strings.HasPrefix(s, prefix)], handing back what follows the prefix. *)
Fixpoint stripPrefix (prefix s : string) : option string :=
  match prefix, s with
  | EmptyString, _ => Some s
  | String p prefix', String c s' =>
      if bool_decide (p = c) then stripPrefix prefix' s' else None
  | String _ _, EmptyString => None
  end.

(** [strings.HasSuffix(s, suffix)], handing back what precedes the suffix. *)
Fixpoint stripSuffix (suffix s : string) : option string :=
  if bool_decide (s = suffix) then Some ""
  else
    match s with
    | EmptyString => None
    | String c s' => String c <$> stripSuffix suffix s'
    end.

(** Whether the line feed, which [.] of a regular expression leaves out,
    occurs in the string. *)
Fixpoint hasLineFeed (s : string) : bool :=
  match s with
  | EmptyString => false
  | String c s' => bool_decide (c = Ascii.ascii_of_nat 10) || hasLineFeed s'
  end.

(** [re.ReplaceAllString(resource, "$1")] for the expression that
    [apHandleWebfinger] compiles: the start of the text, [acct:], a group
    of any characters, the at sign, the quoted domain, the end of the
    text. Anchored at both ends, it matches the whole resource or nothing;
    a match is replaced by its group, which is what stands between [acct:]
    and the at sign before the domain and holds no line feed; without a
    match the resource comes back as it is. *)
Definition accountName (domain resource : string) : string :=
  match stripPrefix "acct:" resource with
  | Some rest =>
      match stripSuffix ("@" ++ domain) rest with
      | Some name => if hasLineFeed name then resource else name
      | None => resource
      end
  | None => resource
  end.

(** What a handler of the discovery endpoints writes. *)
Inductive payload : Type :=
| Text (s : string)
| Json (v : value).

Record discoveryReply : Type := {
  code : Z;
  mediaType : string;
  body : payload
}.

(** [http.Error(w, msg, code)] *)
Definition httpError (msg : string) (status : Z) : discoveryReply :=
  {| code := status; mediaType := "text/plain; charset=utf-8"; body := Text msg |}.

(** [func apHandleWebfinger(w http.ResponseWriter, r *http.Request)], given
    [appConfig.Server.Domain], the error of [regexp.Compile], if any, and
    [r.URL.Query().Get("resource")]. *)
Definition apHandleWebfinger (cfg : Config) (domain : string)
    (compileError : option string) (resource : string) : discoveryReply :=
  match compileError with
  | Some msg => httpError msg 500
  | None =>
      let name := accountName domain resource in
      match Blogs cfg !! name with
      | None => httpError "Not found" 404
      | Some blog =>
          {| code := 200;
             mediaType := "application/jrd+json" ++ charsetUtf8Suffix;
             body := Json (VMap {[
               "subject" := VStr ("acct:" ++ name ++ "@" ++ domain);
               "links" := VArr [VMap {[ "rel" := VStr "self";
                                        "type" := VStr contentTypeAS;
                                        "href" := VStr (apIri cfg blog) ]}] ]}) |}
      end
  end.

(** ** Text utilities *)

(** The byte as a number. *)
Definition byteOf (c : Ascii.ascii) : Z := Z.of_N (Ascii.N_of_ascii c).

Definition isLower (c : Ascii.ascii) : bool := (97 <=? byteOf c) && (byteOf c <=? 122).
Definition isUpper (c : Ascii.ascii) : bool := (65 <=? byteOf c) && (byteOf c <=? 90).
Definition isDigit (c : Ascii.ascii) : bool := (48 <=? byteOf c) && (byteOf c <=? 57).

(** The loop of [urlize] over the lowered string. [strings.Split(s, "")]
    hands out one UTF-8 sequence at a time; a sequence of several bytes
    compares above ["z"], is no space and is dropped, as is each of its
    bytes here. *)
Fixpoint urlizeLowered (s : string) : string :=
  match s with
  | EmptyString => EmptyString
  | String c rest =>
      if isLower c || isUpper c || isDigit c then String c (urlizeLowered rest)
      else if bool_decide (c = " "%char) then String "-"%char (urlizeLowered rest)
      else urlizeLowered rest
  end.

(** [func urlize(str string) string], over [strings.ToLower]. *)
Definition urlize (ToLower : string -> string) (str : string) : string :=
  urlizeLowered (ToLower str).

(** [strings.ToLower] on ASCII text. *)
Fixpoint lowerASCII (s : string) : string :=
  match s with
  | EmptyString => EmptyString
  | String c rest =>
      String (if isUpper c then Ascii.ascii_of_N (Ascii.N_of_ascii c + 32) else c)
             (lowerASCII rest)
  end.

(** A Go [int], 64 bits wide, after an operation: the value wrapped into
    the range from [-2^63] up to [2^63 - 1]. *)
Definition wrapInt (z : Z) : Z := (z + 2 ^ 63) mod 2 ^ 64 - 2 ^ 63.

(** [value[i] == '.' || value[i] == '!' || value[i] == '?'] *)
Definition endsSentence (c : Ascii.ascii) : bool :=
  bool_decide (c = "."%char) || bool_decide (c = "!"%char) || bool_decide (c = "?"%char).

(** [func firstSentences(value string, count int) string]. [range value]
    stops at the first byte of every UTF-8 sequence; the bytes it skips
    are continuation bytes, none of which ends a sentence, so the loop is
    the one over all bytes. What is handed back is [value[0 : i+1]], or
    [value] when the loop runs out. *)
Fixpoint firstSentences (value : string) (count : Z) : string :=
  match value with
  | EmptyString => EmptyString
  | String c rest =>
      if endsSentence c then
        let count := wrapInt (count - 1) in
        if count =? 0 then String c EmptyString
        else String c (firstSentences rest count)
      else String c (firstSentences rest count)
  end.

(** The sentence ends in a text. *)
Fixpoint sentenceEnds (s : string) : Z :=
  match s with
  | EmptyString => 0
  | String c rest => (if endsSentence c then 1 else 0) + sentenceEnds rest
  end.

(** [strings.TrimSuffix(s, suffix)] *)
Definition TrimSuffix (s suffix : string) : string :=
  match stripSuffix suffix s with
  | Some rest => rest
  | None => s
  end.

(** [func trimSlash(s string) string] *)
Definition trimSlash (s : string) : string :=
  if 1 <? Z.of_nat (String.length s) then TrimSuffix s "/" else s.

(** Whether every byte of the text passes. *)
Fixpoint everyByte (ok : Ascii.ascii -> bool) (s : string) : bool :=
  match s with
  | EmptyString => true
  | String c rest => ok c && everyByte ok rest
  end.

(** ** More observations *)

(** The Accept that [apAccept] builds for a Follow, once the actor is
    resolved. *)
Definition acceptActivity (cfg : Config) (env : Env) (blog : configBlog.t)
    (follow : document) : document :=
  let inner := delete "@context" follow in
  <["type" := VStr "Accept"]>
    (<["object" := VMap inner]>
       (<["actor" := VStr (apIri cfg blog)]>
          (<["id" := VStr (apIri cfg blog ++ generateRandomString env 16)]>
             (<["to" := default VNil (inner !! "actor")]>
                (<["@context" := VStr (asContext cfg)]> ∅))))).

(** What a submission does to the registry: nothing, or one statement that
    the store carried out. *)
Definition effect (done : option stmt) (rows : registry) : registry :=
  match done with
  | Some s => carryOut s rows
  | None => rows
  end.

(** The state after a statement carried out, if any, and some further
    events. *)
Definition after (st : State) (done : option stmt) (new : list event) : State :=
  {| followers := effect done (followers st); trace := trace st ++ new |}.

(** The statement, if any, is on the follower rows of the site. *)
Definition onSite (blogName : string) (done : option stmt) : Prop :=
  ∀ s, done = Some s →
    ∃ follower, s = DeleteFollower blogName follower
                ∨ ∃ inbox, s = InsertOrReplace blogName follower inbox.

Definition isHttp (ev : event) : bool :=
  match ev with
  | EvHttp _ => true
  | _ => false
  end.

(** The first [n] rows of a query are read: before none of them does
    [rows.Next()] give up, on none of them does [rows.Scan] fail. *)
Definition readsAll (c : cursor) (n : nat) : Prop :=
  ∀ i, (i < n)%nat → nextStops c i = false ∧ scanFails c i = None.

(** * Properties *)

(** ** Running the engine *)

Ltac unfoldM :=
  unfold mbind, M_bind, mret, M_ret, emit, panic, logPrintln,
         getFollowers, setFollowers in *.

Ltac run := unfoldM; simpl in *.

Lemma record_nil st : record st [] = st.
Proof. destruct st. unfold record. simpl. by rewrite app_nil_r. Qed.

Lemma appDbExec_run env s st :
  appDbExec env s st =
  (Returned (StoreError <$> dbExec env s),
   {| followers := match dbExec env s with
                   | Some _ => followers st
                   | None => carryOut s (followers st)
                   end;
      trace := trace st ++ [EvDbExec s (dbExec env s)] |}).
Proof.
  unfold appDbExec. run. destruct (dbExec env s), s; reflexivity.
Qed.

(** A delivery leaves the registry alone and issues at most one request: a
    POST to the inbox it was given. *)
Lemma apSendSigned_cases cfg env blog activity to st :
  ∃ o sends,
    apSendSigned cfg env blog activity to st = (o, record st sends)
    ∧ (sends = [] ∨ ∃ req, sends = [EvHttp req] ∧ Method req = "POST" ∧ URL req = to).
Proof.
  unfold apSendSigned, Do, deref. run.
  repeat case_match; simplify_eq/=;
    try (eexists _, []; rewrite record_nil; split; [reflexivity | by left]);
    (eexists _, [_]; split; [reflexivity | right; eexists; split; [reflexivity | done]]).
Qed.

(** A resolution leaves the registry alone, issues at most the one GET, and
    hands back an actor only together with a nil error, and only an actor
    that the body of some response decoded to. *)
Lemma apGetRemoteActor_cases env iri st :
  ∃ o gets,
    apGetRemoteActor env iri st = (o, record st gets)
    ∧ (gets = [] ∨ gets = [EvHttp (actorRequest iri)])
    ∧ ∀ p e, o = Returned (Some p, e) →
        e = None ∧ ∃ body, jsonDecodePerson env body = Ok p.
Proof.
  unfold apGetRemoteActor, Do, deref. run.
  repeat case_match; simplify_eq/=;
    try (eexists _, []; rewrite record_nil; split; [reflexivity |];
         split; [by left | intros; simplify_eq]);
    (eexists _, [_]; split; [reflexivity |];
     split; [by right | intros; simplify_eq; eauto]).
Qed.

(** ** The handling of a Follow *)

(** What handling a Follow leaves behind. Either the Follow is dropped: the
    registry is as it was and no POST went out. Or an actor was resolved:
    then, in this order, the resolution, the upsert of the row (resolved
    id, resolved inbox) and at most one POST, to the resolved inbox; the
    registry holds the row unless the store failed the upsert. *)
Lemma apAccept_cases cfg env blogName blog follow st :
  let st' := (apAccept cfg env blogName blog follow st).2 in
  (followers st' = followers st
   ∧ ∃ new, trace st' = (trace st ++ new)%list ∧ Forall (λ ev, isPost ev = false) new)
  ∨ ∃ p body line gets sends logs,
      jsonDecodePerson env body = Ok p
      ∧ followers st'
        = match dbExec env (InsertOrReplace blogName (asPerson.ID p) (asPerson.Inbox p)) with
          | Some _ => followers st
          | None => <[(blogName, asPerson.ID p) := asPerson.Inbox p]> (followers st)
          end
      ∧ trace st'
        = (trace st ++ (EvLog line :: gets)
           ++ EvDbExec (InsertOrReplace blogName (asPerson.ID p) (asPerson.Inbox p))
                (dbExec env (InsertOrReplace blogName (asPerson.ID p) (asPerson.Inbox p)))
              :: sends ++ logs)%list
      ∧ Forall (λ ev, isPost ev = false) gets
      ∧ (sends = [] ∨ ∃ req, sends = [EvHttp req] ∧ Method req = "POST"
                              ∧ URL req = asPerson.Inbox p)
      ∧ Forall (λ ev, isLog ev = true) logs.
Proof.
  intros st'. subst st'. unfold apAccept.
  destruct (follow !! "actor") as [[| | |actor| |]|]; simpl;
    try (left; split; [reflexivity | exists []; by rewrite app_nil_r]).
  run.
  destruct (eqStringIface actor (follow !! "object")); simpl.
  { left. split; [reflexivity | eexists [_]; split; [reflexivity | by repeat constructor]]. }
  match goal with |- context [apGetRemoteActor env actor ?s] =>
    destruct (apGetRemoteActor_cases env actor s) as (o & gets & -> & Hgets & Hres) end.
  assert (Forall (λ ev, isPost ev = false) gets) as Hnopost.
  { destruct Hgets as [-> | ->]; by repeat constructor. }
  destruct o as [[follower [e|]]|]; simpl.
  - left. split; [reflexivity|]. eexists (_ :: gets ++ [_]). rewrite <- !app_assoc. split; [reflexivity|].
    constructor; [done|]. apply Forall_app. split; [done | by repeat constructor].
  - destruct follower as [p|]; simpl.
    2:{ left. split; [reflexivity|]. eexists (_ :: gets). rewrite <- !app_assoc. split; [reflexivity|].
        by constructor. }
    destruct (Hres p None eq_refl) as [_ [body Hbody]].
    unfold apAddFollower. rewrite appDbExec_run. simpl.
    right. exists p, body.
    unfold apNewID, deref. destruct blog as [b|]; run.
    + match goal with |- context [apSendSigned cfg env ?bl ?a ?to ?s] =>
        destruct (apSendSigned_cases cfg env bl a to s) as (so & sends & -> & Hsends) end.
      destruct so as [[e|]|]; simpl.
      * eexists _, gets, sends, [_]. split; [done|]. split; [reflexivity|].
        rewrite <- !app_assoc. simpl. split; [reflexivity|]. split; [done|]. split; [done|]. by repeat constructor.
      * eexists _, gets, sends, [_]. split; [done|]. split; [reflexivity|].
        rewrite <- !app_assoc. simpl. split; [reflexivity|]. split; [done|]. split; [done|]. by repeat constructor.
      * eexists _, gets, sends, []. split; [done|]. split; [reflexivity|].
        rewrite <- !app_assoc. simpl. rewrite app_nil_r. split; [reflexivity|]. split; [done|]. split; [done|]. by repeat constructor.
    + eexists _, gets, [], []. split; [done|]. split; [reflexivity|].
      rewrite <- !app_assoc. simpl. split; [reflexivity|]. split; [done|]. split; [by left|]. by repeat constructor.
  - left. split; [reflexivity|]. eexists (_ :: gets). rewrite <- !app_assoc. split; [reflexivity|].
    by constructor.
Qed.

(** ** Outbound delivery *)

Section Delivery.

Context (cfg : Config) (env : Env).
Context (b : configBlog.t) (activity : value) (to body host : string).
Context (signature : list (string * string)).

Hypothesis marshalled : jsonMarshal env activity = Ok body.
Hypothesis parsed : urlParse env to = Ok host.
Hypothesis signed :
  signRequest env (apIri cfg b ++ "#main-key") (deliveryRequest env to host body) body
  = Ok signature.

(** A response with a status outside 200, 201, 202 and 204 is turned into
    the error that carries the status and the body. *)
Lemma apSendSigned_rejected rsp err st :
  clientDo env (withHeaders (deliveryRequest env to host body) signature)
  = (Some rsp, err) →
  apRequestIsSuccess (StatusCode rsp) = false →
  apSendSigned cfg env (Some b) activity to st
  = (Returned (Some (StatusError (StatusCode rsp) (ResponseBody rsp))),
     record st [EvHttp (withHeaders (deliveryRequest env to host body) signature)]).
Proof.
  intros Hdo Hcode. unfold apSendSigned.
  rewrite marshalled, parsed. unfold deref, Do. run.
  rewrite signed, Hdo. simpl. rewrite Hcode. reflexivity.
Qed.

(** A response with one of the four statuses lets the delivery through. *)
Lemma apSendSigned_delivered rsp st :
  clientDo env (withHeaders (deliveryRequest env to host body) signature)
  = (Some rsp, None) →
  apRequestIsSuccess (StatusCode rsp) = true →
  apSendSigned cfg env (Some b) activity to st
  = (Returned None,
     record st [EvHttp (withHeaders (deliveryRequest env to host body) signature)]).
Proof.
  intros Hdo Hcode. unfold apSendSigned.
  rewrite marshalled, parsed. unfold deref, Do. run.
  rewrite signed, Hdo. simpl. rewrite Hcode. reflexivity.
Qed.

(** The status of the response is read before the error of the POST is
    looked at: when the POST fails there is no response to read it from. *)
Lemma apSendSigned_no_response err st :
  clientDo env (withHeaders (deliveryRequest env to host body) signature)
  = (None, err) →
  apSendSigned cfg env (Some b) activity to st
  = (Panicked,
     record st [EvHttp (withHeaders (deliveryRequest env to host body) signature)]).
Proof.
  intros Hdo. unfold apSendSigned.
  rewrite marshalled, parsed. unfold deref, Do. run.
  rewrite signed, Hdo. reflexivity.
Qed.

End Delivery.

Lemma apRequestIsSuccess_spec code :
  apRequestIsSuccess code = true ↔ code = 200 ∨ code = 201 ∨ code = 202 ∨ code = 204.
Proof. unfold apRequestIsSuccess. lia. Qed.

(** C4, for a single delivery that got as far as the POST. When the remote
    responds with a status outside 200, 201, 202 and 204, the delivery
    returns the error of the remote-rejected class that carries the status
    and the body of the response. When the remote cannot be reached, the
    POST fails and the client hands back no response and an error: the
    delivery has sent the one request and then panics on the status of the
    missing response. It does not return an error of the network-failure
    class, nor anything else. *)
Theorem apSendSigned_rejected_and_unreachable
    cfg env b activity to body host signature st :
  jsonMarshal env activity = Ok body →
  urlParse env to = Ok host →
  signRequest env (apIri cfg b ++ "#main-key") (deliveryRequest env to host body) body
  = Ok signature →
  (∀ rsp err,
     clientDo env (withHeaders (deliveryRequest env to host body) signature)
     = (Some rsp, err) →
     StatusCode rsp ∉ [200; 201; 202; 204] →
     ∃ e, apSendSigned cfg env (Some b) activity to st
          = (Returned (Some e),
             record st [EvHttp (withHeaders (deliveryRequest env to host body) signature)])
          ∧ e = StatusError (StatusCode rsp) (ResponseBody rsp)
          ∧ classOf e = RemoteRejected)
  ∧ (∀ msg,
       clientDo env (withHeaders (deliveryRequest env to host body) signature)
       = (None, Some msg) →
       apSendSigned cfg env (Some b) activity to st
       = (Panicked,
          record st [EvHttp (withHeaders (deliveryRequest env to host body) signature)])
       ∧ ∀ e st', apSendSigned cfg env (Some b) activity to st ≠ (Returned e, st')).
Proof.
  intros Hm Hu Hs. split.
  - intros rsp err Hdo Hcode. eexists. split; [|split; reflexivity].
    apply (apSendSigned_rejected cfg env b activity to body host signature Hm Hu Hs _ _ _ Hdo).
    apply not_true_is_false. rewrite apRequestIsSuccess_spec.
    rewrite !elem_of_cons in Hcode. intros H. apply Hcode. tauto.
  - intros msg Hdo.
    rewrite (apSendSigned_no_response cfg env b activity to body host signature Hm Hu Hs _ st Hdo).
    split; [reflexivity | discriminate].
Qed.

Lemma apSendSigned_rejected_and_unreachable_witness :
  (apSendSigned Scenario.site
     (Scenario.world (Err "EOF") Scenario.unreachable Scenario.unreachable
        (Err "EOF") None Scenario.noLinks)
     (Some Scenario.main) (VMap Scenario.followAlice) "https://remote/alice/inbox"
     Scenario.start).1
  = Panicked.
Proof.
  destruct (apSendSigned_rejected_and_unreachable Scenario.site
    (Scenario.world (Err "EOF") Scenario.unreachable Scenario.unreachable
       (Err "EOF") None Scenario.noLinks)
    Scenario.main (VMap Scenario.followAlice) "https://remote/alice/inbox"
    "{}" "remote" [("Signature", "keyId=https://site/blog#main-key")]
    Scenario.start eq_refl eq_refl eq_refl) as [_ Hunreachable].
  destruct (Hunreachable "dial tcp: connection refused" eq_refl) as [H _].
  rewrite H. reflexivity.
Defined.

(** ** Remote actor resolution *)

(** The resolver asks for the actor IRI itself, with the federation media
    type in the Accept header. *)
Lemma actorRequest_asks_for_activity_json iri :
  Method (actorRequest iri) = "GET" ∧ URL (actorRequest iri) = iri
  ∧ ("Accept", contentTypeAS) ∈ Header (actorRequest iri).
Proof. repeat split. simpl. set_solver. Qed.

(** A resolution that goes through: success status and a body that decodes. *)
Lemma apGetRemoteActor_resolved env iri host rsp actor st :
  urlParse env iri = Ok host →
  clientDo env (actorRequest iri) = (Some rsp, None) →
  apRequestIsSuccess (StatusCode rsp) = true →
  jsonDecodePerson env (ResponseBody rsp) = Ok actor →
  apGetRemoteActor env iri st
  = (Returned (Some actor, None), record st [EvHttp (actorRequest iri)]).
Proof.
  intros Hu Hdo Hcode Hdec. unfold apGetRemoteActor, Do, deref.
  rewrite Hu. run. rewrite Hdo. simpl. rewrite Hcode. simpl. rewrite Hdec. reflexivity.
Qed.

(** A GET that fails is reported as an error of the network-failure class. *)
Lemma apGetRemoteActor_unreachable env iri host rsp msg st :
  urlParse env iri = Ok host →
  clientDo env (actorRequest iri) = (rsp, Some msg) →
  apGetRemoteActor env iri st
  = (Returned (None, Some (TransportError msg)), record st [EvHttp (actorRequest iri)]).
Proof.
  intros Hu Hdo. unfold apGetRemoteActor, Do, deref.
  rewrite Hu. run. rewrite Hdo. reflexivity.
Qed.

Lemma apGetRemoteActor_rejected_status_nil env iri host rsp st :
  urlParse env iri = Ok host →
  clientDo env (actorRequest iri) = (Some rsp, None) →
  apRequestIsSuccess (StatusCode rsp) = false →
  apGetRemoteActor env iri st
  = (Returned (None, None), record st [EvHttp (actorRequest iri)]).
Proof.
  intros Hu Hdo Hcode. unfold apGetRemoteActor, Do, deref.
  rewrite Hu. run. rewrite Hdo. simpl. rewrite Hcode. reflexivity.
Qed.

(** C2, at an actor IRI whose server answers with a status that is not a
    success status: the resolver has issued the GET with the federation
    Accept header, and then returns no actor and NO error: the error it
    hands back is the nil error of the GET that went through. No error of
    the remote-rejected class, or of any class, reaches the caller. *)
Theorem apGetRemoteActor_rejected_status_returns_nil_error env iri host rsp st :
  urlParse env iri = Ok host →
  clientDo env (actorRequest iri) = (Some rsp, None) →
  apRequestIsSuccess (StatusCode rsp) = false →
  apGetRemoteActor env iri st
  = (Returned (None, None), record st [EvHttp (actorRequest iri)])
  ∧ Method (actorRequest iri) = "GET"
  ∧ URL (actorRequest iri) = iri
  ∧ ("Accept", contentTypeAS) ∈ Header (actorRequest iri).
Proof.
  intros Hu Hdo Hcode. split.
  - by apply (apGetRemoteActor_rejected_status_nil env iri host rsp).
  - apply actorRequest_asks_for_activity_json.
Qed.

Lemma apGetRemoteActor_rejected_status_returns_nil_error_witness :
  apGetRemoteActor
    (Scenario.world (Err "EOF") (Scenario.ok 404 "Not found") Scenario.unreachable
       (Err "invalid character") None Scenario.noLinks)
    "https://remote/alice" Scenario.start
  = (Returned (None, None),
     record Scenario.start [EvHttp (actorRequest "https://remote/alice")]).
Proof.
  apply (apGetRemoteActor_rejected_status_returns_nil_error _
           "https://remote/alice" "remote"
           {| StatusCode := 404; ResponseBody := "Not found" |} Scenario.start);
    reflexivity.
Defined.

(** With the nil error in hand, the handling of the Follow does not stop at
    the unresolved actor: it goes on to read the id of the actor that is
    not there. *)
Lemma apAccept_rejected_actor_panics
    cfg env blogName blog follow claimed host rsp st :
  follow !! "actor" = Some (VStr claimed) →
  eqStringIface claimed (follow !! "object") = false →
  urlParse env claimed = Ok host →
  clientDo env (actorRequest claimed) = (Some rsp, None) →
  apRequestIsSuccess (StatusCode rsp) = false →
  apAccept cfg env blogName blog follow st
  = (Panicked,
     record st [EvLog ("New follow request: " ++ claimed); EvHttp (actorRequest claimed)]).
Proof.
  intros Hactor Hother Hurl Hget Hcode. unfold apAccept.
  rewrite Hactor. simpl. run. rewrite Hother.
  rewrite (apGetRemoteActor_rejected_status_nil env claimed host rsp _ Hurl Hget Hcode).
  simpl. unfold record. simpl. by rewrite <- app_assoc.
Qed.

(** ** The inbox *)

Lemma inbox_unknown_site cfg env r st :
  Blogs cfg !! blogParam r = None →
  apHandleInbox cfg env r st
  = (Returned {| status := 404; message := "Inbox not found" |}, st).
Proof. intros H. unfold apHandleInbox. rewrite H. reflexivity. Qed.

Lemma inbox_malformed cfg env r blog msg st :
  Blogs cfg !! blogParam r = Some blog →
  jsonDecodeActivity env (requestBody r) = Err msg →
  apHandleInbox cfg env r st
  = (Returned {| status := 400; message := "Failed to decode body" |}, st).
Proof. intros H1 H2. unfold apHandleInbox. rewrite H1, H2. reflexivity. Qed.

(** The handler answers 201 exactly when the branch it dispatches to
    returns. *)
Lemma inbox_dispatched cfg env r blog activity st :
  Blogs cfg !! blogParam r = Some blog →
  jsonDecodeActivity env (requestBody r) = Ok activity →
  apHandleInbox cfg env r st
  = match dispatch cfg env (blogParam r) blog activity st with
    | (Returned _, st') => (Returned {| status := 201; message := "" |}, st')
    | (Panicked, st') => (Panicked, st')
    end.
Proof. intros H1 H2. unfold apHandleInbox. rewrite H1, H2. reflexivity. Qed.

(** Every branch but those of Follow and Create returns. *)
Lemma dispatch_returns cfg env blogName blog activity st :
  eqStringIface "Follow" (activity !! "type") = false →
  eqStringIface "Create" (activity !! "type") = false →
  (dispatch cfg env blogName blog activity st).1 = Returned tt.
Proof.
  intros HF HC. unfold dispatch. rewrite HF, HC.
  unfold apRemoveFollower, sendNotification.
  repeat case_match; try rewrite appDbExec_run; try reflexivity;
    run; try rewrite appDbExec_run; reflexivity.
Qed.

(** A known site and a body that decodes are answered 201 on every branch
    but those of Follow and Create, whatever the branch does. *)
Lemma inbox_created_outside_follow_and_create cfg env r blog activity st :
  Blogs cfg !! blogParam r = Some blog →
  jsonDecodeActivity env (requestBody r) = Ok activity →
  eqStringIface "Follow" (activity !! "type") = false →
  eqStringIface "Create" (activity !! "type") = false →
  (apHandleInbox cfg env r st).1 = Returned {| status := 201; message := "" |}.
Proof.
  intros Hblog Hbody HF HC. rewrite (inbox_dispatched _ _ _ _ _ _ Hblog Hbody).
  pose proof (dispatch_returns cfg env (blogParam r) blog activity st HF HC) as Hret.
  destruct (dispatch cfg env (blogParam r) blog activity st) as [[[]|] st'];
    simpl in *; [reflexivity | discriminate].
Qed.

(** C1, at a Follow that carries no actor string (the body [{"type":
    "Follow"}], say) sent to a known site: the body decodes, the Follow
    branch asserts that the actor is a string, and the handler panics
    before it writes 201; behind the recovering middleware the sender is
    answered 500. *)
Theorem inbox_follow_without_actor_panics cfg env r blog activity st :
  Blogs cfg !! blogParam r = Some blog →
  jsonDecodeActivity env (requestBody r) = Ok activity →
  eqStringIface "Follow" (activity !! "type") = true →
  asString (activity !! "actor") = None →
  apHandleInbox cfg env r st = (Panicked, st)
  ∧ Recoverer (apHandleInbox cfg env r) st
    = (Returned {| status := 500; message := "" |}, st).
Proof.
  intros Hblog Hbody Htype Hactor.
  assert (apHandleInbox cfg env r st = (Panicked, st)) as Hrun.
  { rewrite (inbox_dispatched _ _ _ _ _ _ Hblog Hbody).
    unfold dispatch. rewrite Htype. unfold apAccept.
    destruct (activity !! "actor") as [[]|]; simpl in *; try discriminate; reflexivity. }
  split; [exact Hrun|]. unfold Recoverer. rewrite Hrun. reflexivity.
Qed.

Lemma inbox_follow_without_actor_panics_witness :
  Recoverer
    (apHandleInbox Scenario.site
       (Scenario.world (Ok {[ "type" := VStr "Follow" ]}) Scenario.unreachable
          Scenario.unreachable (Err "EOF") None Scenario.noLinks)
       Scenario.toMain)
    Scenario.start
  = (Returned {| status := 500; message := "" |}, Scenario.start).
Proof.
  apply (inbox_follow_without_actor_panics Scenario.site _ Scenario.toMain
           Scenario.main {[ "type" := VStr "Follow" ]} Scenario.start);
    reflexivity.
Defined.

(** C6: a Follow whose actor equals its object, sent to a known site, leaves
    the registry as it was, and nothing but a log line is added to what the
    engine did: no GET resolves the actor, no statement reaches the store,
    no POST sends an Accept. *)
Theorem self_follow_is_ignored cfg env r blog activity st :
  Blogs cfg !! blogParam r = Some blog →
  jsonDecodeActivity env (requestBody r) = Ok activity →
  eqStringIface "Follow" (activity !! "type") = true →
  activity !! "actor" = activity !! "object" →
  followers (apHandleInbox cfg env r st).2 = followers st
  ∧ ∃ logs, trace (apHandleInbox cfg env r st).2 = (trace st ++ logs)%list
            ∧ Forall (λ ev, isLog ev = true) logs.
Proof.
  intros Hblog Hbody Htype Hself.
  rewrite (inbox_dispatched _ _ _ _ _ _ Hblog Hbody).
  unfold dispatch. rewrite Htype. unfold apAccept. rewrite <- Hself.
  destruct (activity !! "actor") as [[| | |actor| |]|]; simpl;
    try (split; [reflexivity | exists []; by rewrite app_nil_r]).
  run. rewrite bool_decide_eq_true_2 by reflexivity. simpl.
  split; [reflexivity|]. eexists [_]. split; [reflexivity | by repeat constructor].
Qed.

Lemma self_follow_is_ignored_witness :
  followers
    (apHandleInbox Scenario.site
       (Scenario.world (Ok Scenario.followSelf) (Scenario.ok 200 "{}")
          (Scenario.ok 202 "") (Ok Scenario.alice) None Scenario.noLinks)
       Scenario.toMain Scenario.followed).2
  = followers Scenario.followed
  ∧ ∃ logs,
      trace
        (apHandleInbox Scenario.site
           (Scenario.world (Ok Scenario.followSelf) (Scenario.ok 200 "{}")
              (Scenario.ok 202 "") (Ok Scenario.alice) None Scenario.noLinks)
           Scenario.toMain Scenario.followed).2
      = (trace Scenario.followed ++ logs)%list
      ∧ Forall (λ ev, isLog ev = true) logs.
Proof.
  apply (self_follow_is_ignored Scenario.site _ Scenario.toMain Scenario.main
           Scenario.followSelf Scenario.followed);
    reflexivity.
Defined.

(** ** Taking a Follow back *)



(** ** What a submission can do to the registry *)

Lemma mentionLinks_run id blogIri links st :
  mentionLinks id blogIri links st = (Returned tt, record st (mentions id blogIri links)).
Proof.
  revert st. induction links as [|link links IH]; intros st.
  - simpl. by rewrite record_nil.
  - unfold mentions. simpl. unfold createWebmention. run.
    destruct (Contains link blogIri) eqn:Hc; simpl; rewrite IH; [|reflexivity].
    unfold record, mentions. simpl. by rewrite <- app_assoc.
Qed.

Lemma dispatch_removal cfg env blogName blog activity actor st :
  eqStringIface "Undo" (activity !! "type") = true
  ∨ eqStringIface "Block" (activity !! "type") = true →
  activity !! "actor" = Some (VStr actor) →
  followers (dispatch cfg env blogName blog activity st).2 = followers st
  ∨ followers (dispatch cfg env blogName blog activity st).2
    = delete (blogName, actor) (followers st).
Proof.
  intros Htype Hactor. unfold dispatch.
  destruct (activity !! "type") as [[| | |ty| |]|]; simpl in Htype;
    try (by destruct Htype).
  simpl. rewrite Hactor. unfold apRemoveFollower.
  destruct Htype as [Hty | Hty]; apply bool_decide_eq_true in Hty as <-; simpl.
  - repeat case_match; simplify_eq/=; try (by left); run; rewrite appDbExec_run; simpl.
    destruct (dbExec env _); [by left | right].
    match goal with H : bool_decide _ = true |- _ => apply bool_decide_eq_true in H as -> end.
    reflexivity.
  - repeat case_match; simplify_eq/=; try (by left); run; rewrite appDbExec_run; simpl.
    destruct (dbExec env _); [by left | right].
    match goal with H : _ && bool_decide _ = true |- _ =>
      apply andb_true_iff in H as [_ H]; apply bool_decide_eq_true in H as -> end.
    reflexivity.
Qed.

Lemma dispatch_followers cfg env blogName blog activity st :
  step env blogName (followers st) (followers (dispatch cfg env blogName blog activity st).2).
Proof.
  unfold dispatch.
  destruct (eqStringIface "Follow" (activity !! "type")).
  { destruct (apAccept_cases cfg env blogName (Some blog) activity st)
      as [[-> _] | (p & body & line & gets & sends & logs & Hp & -> & _)].
    - by left.
    - destruct (dbExec env _); [by left | right; left; eauto]. }
  unfold apRemoveFollower, sendNotification, createWebmention, deref.
  repeat case_match; simplify_eq/=; try (by left); run;
    try rewrite appDbExec_run; try rewrite mentionLinks_run; simpl; try (by left);
    (destruct (dbExec env _); [by left | right; right; eauto]).
Qed.


Lemma apHandleInbox_followers cfg env r st :
  step env (blogParam r) (followers st) (followers (apHandleInbox cfg env r st).2).
Proof.
  unfold apHandleInbox.
  destruct (Blogs cfg !! blogParam r) as [blog|]; [|by left].
  destruct (jsonDecodeActivity env (requestBody r)) as [activity|]; [|by left].
  run.
  pose proof (dispatch_followers cfg env (blogParam r) blog activity st) as Hstep.
  by destruct (dispatch cfg env (blogParam r) blog activity st) as [[]].
Qed.





(** ** Upsert and Accept *)





(** ** The key of a follower row *)

Lemma inbox_removal_touches_actor_only cfg env r activity actor st :
  jsonDecodeActivity env (requestBody r) = Ok activity →
  eqStringIface "Undo" (activity !! "type") = true
  ∨ eqStringIface "Block" (activity !! "type") = true →
  activity !! "actor" = Some (VStr actor) →
  followers (apHandleInbox cfg env r st).2 = followers st
  ∨ followers (apHandleInbox cfg env r st).2 = delete (blogParam r, actor) (followers st).
Proof.
  intros Hbody Htype Hactor. unfold apHandleInbox.
  destruct (Blogs cfg !! blogParam r) as [blog|]; [|by left].
  rewrite Hbody. run.
  pose proof (dispatch_removal cfg env (blogParam r) blog activity actor st Htype Hactor).
  by destruct (dispatch cfg env (blogParam r) blog activity st) as [[]].
Qed.

(** C10: the row that an accepted Follow creates is keyed by the id of the
    fetched actor document and stores that document's inbox; the actor IRI
    claimed in the Follow is not in it. When the two differ, the registry
    has the row under the resolved id and nothing new under the claimed
    IRI, and a later Undo or Block that names the claimed IRI leaves the
    row where it is. *)
Theorem follower_row_keyed_by_resolved_id
    cfg env r blog activity claimed host rsp person st :
  Blogs cfg !! blogParam r = Some blog →
  jsonDecodeActivity env (requestBody r) = Ok activity →
  eqStringIface "Follow" (activity !! "type") = true →
  activity !! "actor" = Some (VStr claimed) →
  eqStringIface claimed (activity !! "object") = false →
  urlParse env claimed = Ok host →
  clientDo env (actorRequest claimed) = (Some rsp, None) →
  apRequestIsSuccess (StatusCode rsp) = true →
  jsonDecodePerson env (ResponseBody rsp) = Ok person →
  dbExec env (InsertOrReplace (blogParam r) (asPerson.ID person) (asPerson.Inbox person))
  = None →
  followers (apHandleInbox cfg env r st).2
  = <[(blogParam r, asPerson.ID person) := asPerson.Inbox person]> (followers st)
  ∧ (asPerson.ID person ≠ claimed →
     followers (apHandleInbox cfg env r st).2 !! (blogParam r, claimed)
     = followers st !! (blogParam r, claimed)
     ∧ ∀ env' r' activity',
         jsonDecodeActivity env' (requestBody r') = Ok activity' →
         eqStringIface "Undo" (activity' !! "type") = true
         ∨ eqStringIface "Block" (activity' !! "type") = true →
         activity' !! "actor" = Some (VStr claimed) →
         followers (apHandleInbox cfg env' r' (apHandleInbox cfg env r st).2).2
         !! (blogParam r, asPerson.ID person)
         = Some (asPerson.Inbox person)).
Proof.
  intros Hblog Hbody Htype Hactor Hother Hurl Hget Hcode Hperson Hstore.
  assert (followers (apHandleInbox cfg env r st).2
          = <[(blogParam r, asPerson.ID person) := asPerson.Inbox person]> (followers st))
    as Hrows.
  { rewrite (inbox_dispatched _ _ _ _ _ _ Hblog Hbody).
    unfold dispatch. rewrite Htype. unfold apAccept. rewrite Hactor. simpl. run.
    rewrite Hother.
    rewrite (apGetRemoteActor_resolved env claimed host rsp person _ Hurl Hget Hcode Hperson).
    simpl. unfold apAddFollower. rewrite appDbExec_run, Hstore. simpl.
    match goal with |- context [apSendSigned cfg env ?bl ?a ?to ?s] =>
      destruct (apSendSigned_cases cfg env bl a to s) as (o & sends & -> & _) end.
    by destruct o as [[]|]. }
  split; [exact Hrows|]. intros Hne. split.
  - rewrite Hrows. apply lookup_insert_ne. congruence.
  - intros env' r' activity' Hbody' Htype' Hactor'.
    destruct (inbox_removal_touches_actor_only cfg env' r' activity' claimed
                (apHandleInbox cfg env r st).2 Hbody' Htype' Hactor') as [-> | ->].
    + rewrite Hrows. apply lookup_insert_eq.
    + rewrite lookup_delete_ne by congruence. rewrite Hrows. apply lookup_insert_eq.
Qed.

Lemma follower_row_keyed_by_resolved_id_witness :
  followers
    (apHandleInbox Scenario.site
       (Scenario.world (Ok Scenario.undoAlice) Scenario.unreachable Scenario.unreachable
          (Err "EOF") None Scenario.noLinks)
       Scenario.toMain
       (apHandleInbox Scenario.site
          (Scenario.world (Ok Scenario.followAlice) (Scenario.ok 200 "{}")
             (Scenario.ok 202 "") (Ok Scenario.moved) None Scenario.noLinks)
          Scenario.toMain Scenario.start).2).2
  !! ("main", "https://elsewhere/alice") = Some "https://elsewhere/alice/inbox".
Proof.
  destruct (follower_row_keyed_by_resolved_id Scenario.site
      (Scenario.world (Ok Scenario.followAlice) (Scenario.ok 200 "{}")
         (Scenario.ok 202 "") (Ok Scenario.moved) None Scenario.noLinks)
      Scenario.toMain Scenario.main Scenario.followAlice "https://remote/alice"
      "remote" {| StatusCode := 200; ResponseBody := "{}" |} Scenario.moved
      Scenario.start eq_refl eq_refl eq_refl eq_refl eq_refl eq_refl eq_refl eq_refl
      eq_refl eq_refl) as [_ Hlater].
  destruct Hlater as [_ Hlater]; [discriminate|].
  apply (Hlater
           (Scenario.world (Ok Scenario.undoAlice) Scenario.unreachable
              Scenario.unreachable (Err "EOF") None Scenario.noLinks)
           Scenario.toMain Scenario.undoAlice);
    [reflexivity | left; reflexivity | reflexivity].
Defined.

(** ** Mentions in a Create *)

(** The citations are recorded in the branch of the parse ERROR: when the
    parser fails and still hands a document back, its links are gone
    through. *)
Lemma create_parse_error_goes_through_links
    cfg env blogName blog activity object id content doc msg st :
  eqStringIface "Create" (activity !! "type") = true →
  activity !! "object" = Some (VMap object) →
  object !! "id" = Some (VStr id) →
  nonEmpty id = true →
  object !! "content" = Some (VStr content) →
  asString (object !! "inReplyTo") = None →
  DocumentFromReader env content id = (Some doc, Some msg) →
  dispatch cfg env blogName blog activity st
  = (Returned tt, record st (mentions id (apIri cfg blog) (Document.ExternalLinks doc))).
Proof.
  intros Htype Hobject Hid Hnonempty Hcontent Hreply Hparse. unfold dispatch.
  assert (eqStringIface "Follow" (activity !! "type") = false
          ∧ eqStringIface "Undo" (activity !! "type") = false) as [-> ->].
  { destruct (activity !! "type") as [[]|]; simpl in *; try done.
    apply bool_decide_eq_true in Htype as <-. by split. }
  rewrite Htype, Hobject. simpl. rewrite Hid, Hcontent. simpl. rewrite Hnonempty.
  destruct (object !! "inReplyTo") as [[]|]; simpl in *; try discriminate;
    rewrite Hparse; run; apply mentionLinks_run.
Qed.

(** C3, at a Create whose object has a content string and a non-empty id
    and is not a reply, and whose content parses as HTML: the links of the
    document are looked at only when the parser reports an error, so with
    the parse gone through nothing at all is done; no citation is
    recorded, whatever links to the site the content holds. *)
Theorem create_mention_records_no_citation
    cfg env blogName blog activity object id content doc st :
  eqStringIface "Create" (activity !! "type") = true →
  activity !! "object" = Some (VMap object) →
  object !! "id" = Some (VStr id) →
  nonEmpty id = true →
  object !! "content" = Some (VStr content) →
  (∀ inReplyTo, object !! "inReplyTo" = Some (VStr inReplyTo) →
     nonEmpty inReplyTo && Contains inReplyTo (apIri cfg blog) = false) →
  DocumentFromReader env content id = (doc, None) →
  dispatch cfg env blogName blog activity st = (Returned tt, st).
Proof.
  intros Htype Hobject Hid Hnonempty Hcontent Hreply Hparse. unfold dispatch.
  assert (eqStringIface "Follow" (activity !! "type") = false
          ∧ eqStringIface "Undo" (activity !! "type") = false) as [-> ->].
  { destruct (activity !! "type") as [[]|]; simpl in *; try done.
    apply bool_decide_eq_true in Htype as <-. by split. }
  rewrite Htype, Hobject. simpl. rewrite Hid, Hcontent. simpl. rewrite Hnonempty.
  destruct (object !! "inReplyTo") as [[| | |inReplyTo| |]|]; simpl;
    try (rewrite Hparse; reflexivity).
  specialize (Hreply inReplyTo eq_refl).
  destruct (nonEmpty inReplyTo), (Contains inReplyTo (apIri cfg blog));
    simpl in *; try discriminate; rewrite Hparse; reflexivity.
Qed.

Lemma create_mention_records_no_citation_witness :
  Contains "https://site/blog/posts/42" (apIri Scenario.site Scenario.main) = true
  ∧ dispatch Scenario.site
      (Scenario.world (Ok Scenario.mention) Scenario.unreachable Scenario.unreachable
         (Err "EOF") None Scenario.linksToBlog)
      "main" Scenario.main Scenario.mention Scenario.start
    = (Returned tt, Scenario.start).
Proof.
  split; [reflexivity|].
  apply (create_mention_records_no_citation Scenario.site
           (Scenario.world (Ok Scenario.mention) Scenario.unreachable
              Scenario.unreachable (Err "EOF") None Scenario.linksToBlog)
           "main" Scenario.main Scenario.mention
           {[ "id" := VStr "https://remote/notes/1";
              "content" := VStr "<a href=https://site/blog/posts/42>42</a>" ]}
           "https://remote/notes/1" "<a href=https://site/blog/posts/42>42</a>"
           (Some {| Document.ExternalLinks := ["https://site/blog/posts/42"] |})
           Scenario.start);
    try reflexivity.
  intros inReplyTo. vm_compute. discriminate.
Defined.

(** ** The content hooks *)

(** Whatever the picks, the elements come out once each. *)
Lemma inOrder_Permutation {A : Type} (picks : list nat) (l : list A) :
  inOrder picks l ≡ₚ l.
Proof.
  revert l. induction picks as [|pick picks IH]; intros l; [by destruct l|].
  destruct l as [|x l]; [done|].
  change (inOrder (pick :: picks) (x :: l))
    with (match (x :: l) !! (pick mod length (x :: l))%nat with
          | Some chosen =>
              chosen :: inOrder picks (delete (pick mod length (x :: l))%nat (x :: l))
          | None => x :: l
          end).
  destruct ((x :: l) !! (pick mod length (x :: l))%nat) as [chosen|] eqn:Hchosen; [|done].
  rewrite IH. symmetry. by apply delete_Permutation.
Qed.

(** Rows that are all read end up in the map, a later row over an earlier
    one with the same follower. *)
Lemma scanRows_reads_all c rows i acc :
  (∀ j, (i ≤ j < i + length rows)%nat → nextStops c j = false ∧ scanFails c j = None) →
  scanRows c i rows acc = (list_to_map (reverse rows) ∪ acc, None).
Proof.
  revert i acc. induction rows as [|[follower inbox] rows IH]; intros i acc Hread.
  - simpl. by rewrite (left_id_L ∅ (∪)).
  - simpl. destruct (Hread i) as [-> ->]; [simpl; lia|].
    rewrite IH by (intros j Hj; apply Hread; simpl; lia).
    rewrite reverse_cons, list_to_map_app. simpl.
    by rewrite insert_empty, <- (assoc_L (∪)), <- insert_union_singleton_l.
Qed.

(** The rows of a map, all read in whatever order, give the map back. *)
Lemma scanRows_of_map c picks (m : gmap string string) :
  readsAll c (size m) →
  scanRows c 0 (inOrder picks (map_to_list m)) ∅ = (m, None).
Proof.
  intros Hread. rewrite scanRows_reads_all.
  - rewrite (right_id_L ∅ (∪)). f_equal.
    rewrite <- (list_to_map_to_list m) at 2. symmetry.
    apply list_to_map_proper; [apply NoDup_fst_map_to_list|].
    by rewrite reverse_Permutation, inOrder_Permutation.
  - intros j Hj. apply Hread.
    rewrite (Permutation_length (inOrder_Permutation picks (map_to_list m))) in Hj.
    rewrite length_map_to_list in Hj. lia.
Qed.

(** However the reading goes, the map that comes out holds nothing but
    what was in it before and the rows; when the reading fails the map is
    empty, and it fails only on a row that [rows.Scan] fails on. *)
Lemma scanRows_sub c rows i acc listed err :
  scanRows c i rows acc = (listed, err) →
  (∀ k v, listed !! k = Some v → acc !! k = Some v ∨ (k, v) ∈ rows)
  ∧ (∀ e, err = Some e →
       listed = ∅ ∧ ∃ j msg, scanFails c j = Some msg ∧ e = StoreError msg).
Proof.
  revert i acc. induction rows as [|[follower inbox] rows IH]; intros i acc Hrun;
    simpl in Hrun.
  - simplify_eq. split; [by left | done].
  - destruct (nextStops c i); [simplify_eq; split; [by left | done]|].
    destruct (scanFails c i) as [msg|] eqn:Hscan.
    + simplify_eq. split; [intros k v Hk; by rewrite lookup_empty in Hk|].
      intros e He. simplify_eq. split; [done|]. by exists i, msg.
    + destruct (IH _ _ Hrun) as [Hsub Herr]. split; [|exact Herr].
      intros k v Hk. destruct (Hsub k v Hk) as [Hacc | Hin].
      * destruct (decide (k = follower)) as [-> | Hne].
        -- rewrite lookup_insert_eq in Hacc. simplify_eq. right. apply list_elem_of_here.
        -- rewrite lookup_insert_ne in Hacc by done. by left.
      * right. by apply list_elem_of_further.
Qed.

(** What [apGetAllFollowers] hands back of the rows of a site is among
    these rows. *)
Lemma scanRows_listing c picks (m : gmap string string) listed err :
  scanRows c 0 (inOrder picks (map_to_list m)) ∅ = (listed, err) →
  listed ⊆ m.
Proof.
  intros Hrun. apply map_subseteq_spec. intros k v Hk.
  destruct (proj1 (scanRows_sub _ _ _ _ _ _ Hrun) k v Hk) as [Hempty | Hin].
  - by rewrite lookup_empty in Hempty.
  - rewrite inOrder_Permutation in Hin. by apply elem_of_map_to_list.
Qed.

Lemma ranged_inboxes env (followers : gmap string string) :
  ranged env followers ≡ₚ inboxes followers.
Proof. unfold ranged, inboxes. by rewrite inOrder_Permutation. Qed.

Lemma apSendTo_run env blog activity followers st :
  apSendTo env blog activity followers st
  = (Returned tt, record st (map (EvGo blog activity) (ranged env followers))).
Proof.
  unfold apSendTo. generalize (ranged env followers) as targets. intros targets.
  revert st. induction targets as [|inbox targets IH]; intros st; simpl.
  - by rewrite record_nil.
  - run. rewrite IH. unfold record. simpl. by rewrite <- app_assoc.
Qed.

(** With the followers read, all of them, the fan-out starts one detached
    delivery for each follower inbox of the blog. *)
Lemma apSendToAllFollowers_run cfg env blog activity st :
  dbQuery env blog = None →
  readsAll (dbRows env blog) (size (followersOf blog (followers st))) →
  apSendToAllFollowers cfg env blog activity st
  = (Returned tt,
     record st (EvDbQuery blog None
                :: map (EvGo (Blogs cfg !! blog) activity)
                       (ranged env (followersOf blog (followers st))))).
Proof.
  intros Hquery Hread. unfold apSendToAllFollowers, apGetAllFollowers. run.
  rewrite Hquery. simpl. rewrite (scanRows_of_map _ _ _ Hread).
  rewrite apSendTo_run. unfold record. simpl.
  by rewrite <- app_assoc.
Qed.

(** C5, as the code has it: the publish hook and the update hook return
    without any effect for a content item with an empty publish timestamp
    or with no section parameter. The delete hook has no such guard, it
    reads neither the timestamp nor the parameters of the item: two items
    of the same path and blog are deleted alike, and with federation
    enabled, the blog configured and its follower rows read, all of them,
    the hook starts one delivery of a Delete activity for every follower
    inbox of the item's blog, in the order of the range over the map. *)
Theorem publish_and_update_skip_unlisted_items cfg env p st :
  (post.Published p = "" ∨ firstParameter p "section" = "" →
   apPost cfg env p st = (Returned tt, st)
   ∧ apUpdate cfg env p st = (Returned tt, st))
  ∧ (∀ p', post.Path p' = post.Path p → post.Blog p' = post.Blog p →
       apDelete cfg env p' st = apDelete cfg env p st)
  ∧ ∀ blog,
      ActivityPubEnabled cfg = true →
      Blogs cfg !! post.Blog p = Some blog →
      dbQuery env (post.Blog p) = None →
      readsAll (dbRows env (post.Blog p))
               (size (followersOf (post.Blog p) (followers st))) →
      ∃ activity targets,
        apDelete cfg env p st
        = (Returned tt,
           record st (EvDbQuery (post.Blog p) None
                      :: map (EvGo (Some blog) (VMap activity)) targets))
        ∧ targets ≡ₚ inboxes (followersOf (post.Blog p) (followers st))
        ∧ activity !! "type" = Some (VStr "Delete").
Proof.
  split; [|split].
  - intros Hunlisted.
    assert (bool_decide (post.Published p = "")
            || bool_decide (firstParameter p "section" = "") = true) as Hguard.
    { apply orb_true_iff. destruct Hunlisted as [H | H]; [left | right];
        by apply bool_decide_eq_true. }
    split.
    + unfold apPost. rewrite Hguard. by destruct (ActivityPubEnabled cfg).
    + unfold apUpdate. rewrite Hguard. by destruct (ActivityPubEnabled cfg).
  - intros p' Hpath Hblog. unfold apDelete, blogIriOf. by rewrite Hpath, Hblog.
  - intros blog Henabled Hblog Hquery Hread. unfold apDelete, blogIriOf, deref.
    rewrite Henabled, Hblog. run.
    eexists. exists (ranged env (followersOf (post.Blog p) (followers st))).
    rewrite (apSendToAllFollowers_run _ _ _ _ _ Hquery Hread), Hblog.
    split; [reflexivity|]. split; [apply ranged_inboxes|].
    rewrite lookup_insert_ne by discriminate. apply lookup_insert_eq.
Qed.

Lemma publish_and_update_skip_unlisted_items_witness :
  apPost Scenario.site
    (Scenario.world (Err "EOF") Scenario.unreachable Scenario.unreachable
       (Err "EOF") None Scenario.noLinks)
    Scenario.draft Scenario.followed
  = (Returned tt, Scenario.followed).
Proof.
  apply (proj1 (publish_and_update_skip_unlisted_items Scenario.site
           (Scenario.world (Err "EOF") Scenario.unreachable Scenario.unreachable
              (Err "EOF") None Scenario.noLinks)
           Scenario.draft Scenario.followed)).
  left. reflexivity.
Defined.

(** C5 fails as stated: the delete hook, run for a content item with an
    empty publish timestamp and no section parameter, starts a delivery of
    a Delete activity to the inbox of the one follower of the blog. *)
Lemma delete_of_draft_fans_out :
  post.Published Scenario.draft = ""
  ∧ firstParameter Scenario.draft "section" = ""
  ∧ ∃ activity,
      activity !! "type" = Some (VStr "Delete")
      ∧ trace
          (apDelete Scenario.site
             (Scenario.world (Err "EOF") Scenario.unreachable Scenario.unreachable
                (Err "EOF") None Scenario.noLinks)
             Scenario.draft Scenario.followed).2
        = [EvDbQuery "main" None;
           EvGo (Some Scenario.main) (VMap activity) "https://remote/alice/inbox"].
Proof.
  split; [reflexivity|]. split; [reflexivity|].
  eexists. split; [|reflexivity]. reflexivity.
Qed.

(** ** The other branches of the inbox *)

(** The type of an activity is one string; with it known, the switch of the
    dispatcher is decided. *)
Ltac decide_type Htype :=
  match type of Htype with
  | eqStringIface _ (?activity !! "type") = true =>
      destruct (activity !! "type") as [[| | |? | |]|]; simpl in Htype; try done;
      apply bool_decide_eq_true in Htype as <-; simpl
  end.

(** X1: a Block whose object is a non-empty string equal to its actor is
    answered 201 and puts exactly one statement to the store, the delete of
    the row of (site, that actor): the row is gone unless the store fails,
    and nothing else is done. *)
Theorem block_removes_follower cfg env r blog activity actor st :
  Blogs cfg !! blogParam r = Some blog →
  jsonDecodeActivity env (requestBody r) = Ok activity →
  eqStringIface "Block" (activity !! "type") = true →
  activity !! "object" = Some (VStr actor) →
  activity !! "actor" = Some (VStr actor) →
  actor ≠ "" →
  apHandleInbox cfg env r st
  = (Returned {| status := 201; message := "" |},
     {| followers := match dbExec env (DeleteFollower (blogParam r) actor) with
                     | Some _ => followers st
                     | None => delete (blogParam r, actor) (followers st)
                     end;
        trace := trace st ++ [EvDbExec (DeleteFollower (blogParam r) actor)
                                (dbExec env (DeleteFollower (blogParam r) actor))] |}).
Proof.
  intros Hblog Hbody Htype Hobject Hactor Hne.
  rewrite (inbox_dispatched _ _ _ _ _ _ Hblog Hbody). unfold dispatch.
  decide_type Htype. rewrite Hobject, Hactor. simpl.
  assert (nonEmpty actor = true) as -> by (by destruct actor).
  rewrite bool_decide_eq_true_2 by reflexivity. simpl.
  unfold apRemoveFollower. run. rewrite appDbExec_run. reflexivity.
Qed.

Lemma block_removes_follower_witness :
  followers
    (apHandleInbox Scenario.site
       (Scenario.world
          (Ok {[ "type" := VStr "Block"; "actor" := VStr "https://remote/alice";
                 "object" := VStr "https://remote/alice" ]})
          Scenario.unreachable Scenario.unreachable (Err "EOF") None Scenario.noLinks)
       Scenario.toMain Scenario.followed).2
  = ∅.
Proof.
  rewrite (block_removes_follower Scenario.site _ Scenario.toMain Scenario.main
             {[ "type" := VStr "Block"; "actor" := VStr "https://remote/alice";
                "object" := VStr "https://remote/alice" ]}
             "https://remote/alice" Scenario.followed);
    try reflexivity.
  discriminate.
Defined.

(** X2: a Like or an Announce whose actor and object are non-empty strings
    and whose object contains the IRI of the site is answered 201 and sends
    exactly one notification, the actor, the word liked or announced, and
    the object; the registry is not touched and nothing else is done. *)
Theorem reaction_is_notified cfg env r blog activity actor object st :
  Blogs cfg !! blogParam r = Some blog →
  jsonDecodeActivity env (requestBody r) = Ok activity →
  activity !! "actor" = Some (VStr actor) →
  activity !! "object" = Some (VStr object) →
  actor ≠ "" →
  object ≠ "" →
  Contains object (apIri cfg blog) = true →
  (eqStringIface "Like" (activity !! "type") = true →
   apHandleInbox cfg env r st
   = (Returned {| status := 201; message := "" |},
      record st [EvNotification (actor ++ " liked " ++ object)]))
  ∧ (eqStringIface "Announce" (activity !! "type") = true →
     apHandleInbox cfg env r st
     = (Returned {| status := 201; message := "" |},
        record st [EvNotification (actor ++ " announced " ++ object)])).
Proof.
  intros Hblog Hbody Hactor Hobject Hna Hno Hcontains.
  assert (nonEmpty actor = true) as Ha by (by destruct actor).
  assert (nonEmpty object = true) as Ho by (by destruct object).
  split; intros Htype;
    rewrite (inbox_dispatched _ _ _ _ _ _ Hblog Hbody); unfold dispatch;
    decide_type Htype; rewrite Hactor, Hobject; simpl;
    rewrite Ha, Ho, Hcontains; reflexivity.
Qed.

Lemma reaction_is_notified_witness :
  apHandleInbox Scenario.site
    (Scenario.world
       (Ok {[ "type" := VStr "Like"; "actor" := VStr "https://remote/bob";
              "object" := VStr "https://site/blog/posts/42" ]})
       Scenario.unreachable Scenario.unreachable (Err "EOF") None Scenario.noLinks)
    Scenario.toMain Scenario.start
  = (Returned {| status := 201; message := "" |},
     record Scenario.start
       [EvNotification "https://remote/bob liked https://site/blog/posts/42"]).
Proof.
  apply (reaction_is_notified Scenario.site _ Scenario.toMain Scenario.main
           {[ "type" := VStr "Like"; "actor" := VStr "https://remote/bob";
              "object" := VStr "https://site/blog/posts/42" ]}
           "https://remote/bob" "https://site/blog/posts/42" Scenario.start);
    try reflexivity; discriminate.
Defined.

(** X3: a Like or an Announce whose object is no string that contains the
    IRI of the site is answered 201 and otherwise ignored: the state is as
    it was. *)
Theorem foreign_reaction_is_ignored cfg env r blog activity st :
  Blogs cfg !! blogParam r = Some blog →
  jsonDecodeActivity env (requestBody r) = Ok activity →
  eqStringIface "Like" (activity !! "type") = true
  ∨ eqStringIface "Announce" (activity !! "type") = true →
  (∀ object, activity !! "object" = Some (VStr object) →
             Contains object (apIri cfg blog) = false) →
  apHandleInbox cfg env r st = (Returned {| status := 201; message := "" |}, st).
Proof.
  intros Hblog Hbody Htype Hforeign.
  rewrite (inbox_dispatched _ _ _ _ _ _ Hblog Hbody). unfold dispatch.
  destruct Htype as [Htype | Htype]; decide_type Htype;
    destruct (activity !! "actor") as [[| | |actor| |]|]; simpl;
    destruct (activity !! "object") as [[| | |object| |]|]; simpl; try reflexivity;
    rewrite (Hforeign object eq_refl); by rewrite !andb_false_r.
Qed.

Lemma foreign_reaction_is_ignored_witness :
  apHandleInbox Scenario.site
    (Scenario.world
       (Ok {[ "type" := VStr "Announce"; "actor" := VStr "https://remote/bob";
              "object" := VStr "https://elsewhere/notes/7" ]})
       Scenario.unreachable Scenario.unreachable (Err "EOF") None Scenario.noLinks)
    Scenario.toMain Scenario.followed
  = (Returned {| status := 201; message := "" |}, Scenario.followed).
Proof.
  apply (foreign_reaction_is_ignored Scenario.site _ Scenario.toMain Scenario.main
           {[ "type" := VStr "Announce"; "actor" := VStr "https://remote/bob";
              "object" := VStr "https://elsewhere/notes/7" ]} Scenario.followed);
    try reflexivity.
  - right. reflexivity.
  - intros object [= <-]. reflexivity.
Defined.

(** X4: a Create whose object has a non-empty id and an inReplyTo string
    that contains the IRI of the site is answered 201 and records exactly
    one citation, from the id to the post replied to; the content of the
    note is not parsed for links, whatever the parser would make of it. *)
Theorem reply_is_recorded_as_citation
    cfg env r blog activity object id inReplyTo st :
  Blogs cfg !! blogParam r = Some blog →
  jsonDecodeActivity env (requestBody r) = Ok activity →
  eqStringIface "Create" (activity !! "type") = true →
  activity !! "object" = Some (VMap object) →
  object !! "id" = Some (VStr id) →
  object !! "inReplyTo" = Some (VStr inReplyTo) →
  id ≠ "" →
  inReplyTo ≠ "" →
  Contains inReplyTo (apIri cfg blog) = true →
  apHandleInbox cfg env r st
  = (Returned {| status := 201; message := "" |},
     record st [EvWebmention id inReplyTo]).
Proof.
  intros Hblog Hbody Htype Hobject Hid Hreply Hni Hnr Hcontains.
  assert (nonEmpty id = true) as Hi by (by destruct id).
  assert (nonEmpty inReplyTo = true) as Hr by (by destruct inReplyTo).
  rewrite (inbox_dispatched _ _ _ _ _ _ Hblog Hbody). unfold dispatch.
  decide_type Htype. rewrite Hobject. simpl. rewrite Hid, Hreply. simpl.
  rewrite Hi, Hr, Hcontains. reflexivity.
Qed.

Lemma reply_is_recorded_as_citation_witness :
  apHandleInbox Scenario.site
    (Scenario.world
       (Ok {[ "type" := VStr "Create";
              "object" := VMap {[ "id" := VStr "https://remote/notes/2";
                                  "inReplyTo" := VStr "https://site/blog/posts/42";
                                  "content" := VStr "<p>well said</p>" ]} ]})
       Scenario.unreachable Scenario.unreachable (Err "EOF") None
       (None, Some "unexpected EOF"))
    Scenario.toMain Scenario.start
  = (Returned {| status := 201; message := "" |},
     record Scenario.start
       [EvWebmention "https://remote/notes/2" "https://site/blog/posts/42"]).
Proof.
  apply (reply_is_recorded_as_citation Scenario.site _ Scenario.toMain Scenario.main
           {[ "type" := VStr "Create";
              "object" := VMap {[ "id" := VStr "https://remote/notes/2";
                                  "inReplyTo" := VStr "https://site/blog/posts/42";
                                  "content" := VStr "<p>well said</p>" ]} ]}
           {[ "id" := VStr "https://remote/notes/2";
              "inReplyTo" := VStr "https://site/blog/posts/42";
              "content" := VStr "<p>well said</p>" ]}
           "https://remote/notes/2" "https://site/blog/posts/42" Scenario.start);
    try reflexivity; discriminate.
Defined.

(** X5: an activity of a type the switch has no branch for (a missing type
    and a type that is no string among them), and a Delete, are answered
    201 and otherwise ignored: the state is as it was. *)
Theorem unhandled_types_are_acknowledged cfg env r blog activity st :
  Blogs cfg !! blogParam r = Some blog →
  jsonDecodeActivity env (requestBody r) = Ok activity →
  (∀ name, activity !! "type" = Some (VStr name) →
           name ∉ ["Follow"; "Undo"; "Create"; "Block"; "Like"; "Announce"]) →
  apHandleInbox cfg env r st = (Returned {| status := 201; message := "" |}, st).
Proof.
  intros Hblog Hbody Htype.
  rewrite (inbox_dispatched _ _ _ _ _ _ Hblog Hbody). unfold dispatch.
  destruct (activity !! "type") as [[| | |name| |]|]; simpl; try reflexivity.
  specialize (Htype name eq_refl). rewrite !elem_of_cons in Htype.
  repeat (case_bool_decide; simpl); try reflexivity;
    exfalso; apply Htype; subst; tauto.
Qed.

Lemma unhandled_types_are_acknowledged_witness :
  apHandleInbox Scenario.site
    (Scenario.world
       (Ok {[ "type" := VStr "Delete"; "actor" := VStr "https://remote/alice";
              "object" := VStr "https://remote/alice" ]})
       Scenario.unreachable Scenario.unreachable (Err "EOF") None Scenario.noLinks)
    Scenario.toMain Scenario.followed
  = (Returned {| status := 201; message := "" |}, Scenario.followed).
Proof.
  apply (unhandled_types_are_acknowledged Scenario.site _ Scenario.toMain Scenario.main
           {[ "type" := VStr "Delete"; "actor" := VStr "https://remote/alice";
              "object" := VStr "https://remote/alice" ]} Scenario.followed);
    try reflexivity.
  intros name [= <-]. rewrite !elem_of_cons, elem_of_nil. intros H.
  repeat destruct H as [H | H]; try discriminate. exact H.
Defined.

(** ** A submission and the state it meets *)

Lemma after_nothing st : after st None [] = st.
Proof. destruct st. unfold after. simpl. by rewrite app_nil_r. Qed.

Lemma after_record st new : record st new = after st None new.
Proof. reflexivity. Qed.

Lemma after_after st done new more :
  after (after st None new) done more = after st done (new ++ more).
Proof. unfold after. simpl. by rewrite app_assoc. Qed.

Lemma after_then_record st done new more :
  record (after st done new) more = after st done (new ++ more).
Proof. unfold after, record. simpl. by rewrite app_assoc. Qed.

Lemma apGetRemoteActor_uniform env iri :
  ∃ o gets, ∀ st, apGetRemoteActor env iri st = (o, record st gets).
Proof.
  unfold apGetRemoteActor, Do, deref.
  destruct (urlParse env iri) as [host|msg].
  2:{ exists (Returned (None, Some (UrlError msg))), []. intros st. by rewrite record_nil. }
  destruct (clientDo env (actorRequest iri)) as [[rsp|] [e|]] eqn:Hdo;
    try (eexists _, [_]; intros st; run; reflexivity).
  destruct (apRequestIsSuccess (StatusCode rsp)) eqn:Hcode;
    [destruct (jsonDecodePerson env (ResponseBody rsp)) eqn:Hp|];
    eexists _, [_]; intros st; run; rewrite ?Hcode; simpl; rewrite ?Hp; reflexivity.
Qed.

Lemma apSendSigned_uniform cfg env blog activity to :
  ∃ o sends, ∀ st, apSendSigned cfg env blog activity to st = (o, record st sends).
Proof.
  unfold apSendSigned, Do, deref.
  destruct (jsonMarshal env activity) as [body|msg].
  2:{ eexists _, []. intros st. by rewrite record_nil. }
  destruct (urlParse env to) as [host|msg].
  2:{ eexists _, []. intros st. by rewrite record_nil. }
  destruct blog as [b|].
  2:{ eexists _, []. intros st. by rewrite record_nil. }
  simpl.
  destruct (signRequest env (apIri cfg b ++ "#main-key")
              (deliveryRequest env to host body) body) as [signature|msg] eqn:Hsign.
  2:{ eexists _, []. intros st. run. rewrite ?Hsign. by rewrite record_nil. }
  destruct (clientDo env (withHeaders (deliveryRequest env to host body) signature))
    as [[rsp|] e] eqn:Hdo.
  - destruct (apRequestIsSuccess (StatusCode rsp)) eqn:Hcode;
      eexists _, [_]; intros st; run; rewrite ?Hsign, ?Hdo; simpl; rewrite ?Hcode; reflexivity.
  - eexists _, [_]. intros st. run. rewrite ?Hsign, ?Hdo. reflexivity.
Qed.

Lemma appDbExec_uniform env s st :
  appDbExec env s st
  = (Returned (StoreError <$> dbExec env s),
     after st (match dbExec env s with Some _ => None | None => Some s end)
       [EvDbExec s (dbExec env s)]).
Proof. rewrite appDbExec_run. unfold after. by destruct (dbExec env s). Qed.

Lemma onSite_nothing blogName : onSite blogName None.
Proof. intros s [=]. Qed.

Lemma onSite_exec env blogName s :
  onSite blogName (Some s) →
  onSite blogName (match dbExec env s with Some _ => None | None => Some s end).
Proof. intros H. destruct (dbExec env s); [apply onSite_nothing | exact H]. Qed.

Lemma onSite_insert blogName follower inbox :
  onSite blogName (Some (InsertOrReplace blogName follower inbox)).
Proof. intros s [= <-]. eauto. Qed.

Lemma onSite_delete blogName follower :
  onSite blogName (Some (DeleteFollower blogName follower)).
Proof. intros s [= <-]. eauto. Qed.

Lemma apAccept_uniform cfg env blogName blog follow :
  ∃ o done new,
    (∀ st, apAccept cfg env blogName blog follow st = (o, after st done new))
    ∧ onSite blogName done.
Proof.
  unfold apAccept, apNewID, deref.
  destruct (follow !! "actor") as [[| | |actor| |]|]; simpl;
    try (exists Panicked, None, []; split; [|apply onSite_nothing];
         intros st; by rewrite after_nothing).
  run.
  destruct (eqStringIface actor (follow !! "object")).
  { eexists _, None, [_]. split; [|apply onSite_nothing]. intros st. reflexivity. }
  destruct (apGetRemoteActor_uniform env actor) as (o & gets & Hget).
  unfold apAddFollower.
  destruct o as [[[p|] [e|]]|]; [|destruct blog as [b|]| | | ].
  2:{ setoid_rewrite Hget. simpl.
      match goal with |- context [apSendSigned cfg env ?bl ?a ?to] =>
        destruct (apSendSigned_uniform cfg env bl a to) as (so & sends & Hsend) end.
      destruct so as [[e|]|];
        [eexists _, _, (_ :: gets ++ _ :: sends ++ [_])
        |eexists _, _, (_ :: gets ++ _ :: sends ++ [_])
        |eexists _, _, (_ :: gets ++ _ :: sends)];
        (split; [|apply onSite_exec, onSite_insert]);
        intros st; run; rewrite appDbExec_uniform; run; rewrite Hsend; run;
        unfold after, record; simpl; by rewrite <- !app_assoc. }
  2:{ eexists _, _, (_ :: gets ++ [_]). split; [|apply onSite_exec, onSite_insert].
      intros st. rewrite Hget. run.
      rewrite appDbExec_uniform. run. unfold after, record. simpl.
      by rewrite <- !app_assoc. }
  all: try (eexists _, None, (_ :: gets ++ [_]); split; [|apply onSite_nothing];
            intros st; rewrite Hget; run;
            unfold after, record; simpl; by rewrite <- !app_assoc).
  all: eexists _, None, (_ :: gets); (split; [|apply onSite_nothing]);
       intros st; rewrite Hget; run;
       unfold after, record; simpl; by rewrite <- !app_assoc.
Qed.

Lemma dispatch_uniform cfg env blogName blog activity :
  ∃ o done new,
    (∀ st, dispatch cfg env blogName blog activity st = (o, after st done new))
    ∧ onSite blogName done.
Proof.
  unfold dispatch.
  destruct (eqStringIface "Follow" (activity !! "type")); [apply apAccept_uniform|].
  unfold apRemoveFollower, sendNotification, createWebmention, deref.
  repeat case_match; simplify_eq/=;
    first
      [ exists (Returned tt), None, []; split; [|apply onSite_nothing];
        intros st; by rewrite after_nothing
      | exists Panicked, None, []; split; [|apply onSite_nothing];
        intros st; by rewrite after_nothing
      | eexists _, None, [_]; split; [|apply onSite_nothing]; intros st; reflexivity
      | eexists _, _, [_]; split; [|apply onSite_exec, onSite_delete];
        intros st; run; rewrite appDbExec_uniform; reflexivity
      | eexists _, None, _; split; [|apply onSite_nothing];
        intros st; run; rewrite mentionLinks_run; reflexivity ].
Qed.

(** X6: what a submission to the inbox is answered, which statement it
    gets the store to carry out and which events it adds are fixed by the
    configuration, the world and the submission: the handler reads neither
    the registry nor what was done before. The statement, if there is one,
    is an upsert or a delete of a follower row of the site submitted to. *)
Theorem inbox_does_not_read_the_state cfg env r :
  ∃ out done new,
    (∀ st, apHandleInbox cfg env r st = (out, after st done new))
    ∧ onSite (blogParam r) done.
Proof.
  unfold apHandleInbox.
  destruct (Blogs cfg !! blogParam r) as [blog|].
  2:{ eexists _, None, []. split; [|apply onSite_nothing].
      intros st. by rewrite after_nothing. }
  destruct (jsonDecodeActivity env (requestBody r)) as [activity|msg].
  2:{ eexists _, None, []. split; [|apply onSite_nothing].
      intros st. by rewrite after_nothing. }
  destruct (dispatch_uniform cfg env (blogParam r) blog activity)
    as (o & done & new & H & Hsite).
  destruct o as [[]|]; eexists _, done, new; (split; [|exact Hsite]);
    intros st; run; rewrite H; reflexivity.
Qed.

Lemma effect_twice done rows : effect done (effect done rows) = effect done rows.
Proof.
  destruct done as [[blog follower inbox | blog follower]|]; simpl.
  - apply insert_insert_eq.
  - apply delete_delete_eq.
  - reflexivity.
Qed.

(** X7: a submission served twice in the same world leaves the registry
    that serving it once leaves: a Follow sent again upserts the same row,
    an Undo or Block sent again deletes a row that is gone. *)
Theorem inbox_twice_is_once_for_the_registry cfg env r st :
  followers (apHandleInbox cfg env r (apHandleInbox cfg env r st).2).2
  = followers (apHandleInbox cfg env r st).2.
Proof.
  unfold apHandleInbox.
  destruct (Blogs cfg !! blogParam r) as [blog|]; [|reflexivity].
  destruct (jsonDecodeActivity env (requestBody r)) as [activity|msg]; [|reflexivity].
  destruct (dispatch_uniform cfg env (blogParam r) blog activity)
    as (o & done & new & H & _).
  run. rewrite !H. destruct o as [[]|]; simpl; apply effect_twice.
Qed.

(** X8: a submission to the inbox of one site leaves the rows of every
    other site as they are. *)
Theorem inbox_leaves_other_sites_alone cfg env r st blog follower :
  blog ≠ blogParam r →
  followers (apHandleInbox cfg env r st).2 !! (blog, follower)
  = followers st !! (blog, follower).
Proof.
  intros Hne.
  destruct (apHandleInbox_followers cfg env r st)
    as [-> | [(p & body & _ & ->) | (f & ->)]]; [done | |].
  - apply lookup_insert_ne. congruence.
  - apply lookup_delete_ne. congruence.
Qed.

Lemma inbox_leaves_other_sites_alone_witness :
  followers
    (apHandleInbox Scenario.site
       (Scenario.world (Ok Scenario.undoAlice) Scenario.unreachable Scenario.unreachable
          (Err "EOF") None Scenario.noLinks)
       Scenario.toMain
       {| followers := {[ ("photos", "https://remote/alice") := "https://remote/alice/inbox" ]};
          trace := [] |}).2
  !! ("photos", "https://remote/alice") = Some "https://remote/alice/inbox".
Proof.
  rewrite (inbox_leaves_other_sites_alone Scenario.site _ Scenario.toMain _
             "photos" "https://remote/alice"); [reflexivity | discriminate].
Defined.

Lemma mentions_are_no_requests id blogIri links :
  Forall (λ ev, isHttp ev = false) (mentions id blogIri links).
Proof. unfold mentions. apply Forall_forall. intros ev Hin.
  apply list_elem_of_In, in_map_iff in Hin as (link & <- & _). reflexivity. Qed.

Lemma dispatch_outside_follow_trace cfg env blogName blog activity st :
  eqStringIface "Follow" (activity !! "type") = false →
  ∃ new, trace (dispatch cfg env blogName blog activity st).2 = (trace st ++ new)%list
         ∧ Forall (λ ev, isHttp ev = false) new.
Proof.
  intros Htype. unfold dispatch. rewrite Htype.
  unfold apRemoveFollower, sendNotification, createWebmention, deref.
  repeat case_match; simplify_eq/=; run;
    rewrite ?appDbExec_run, ?mentionLinks_run; simpl;
    first
      [ exists []; split; [by rewrite app_nil_r | constructor]
      | eexists [_]; split; [reflexivity | by repeat constructor]
      | eexists; split; [reflexivity | apply mentions_are_no_requests] ].
Qed.

(** X9: only a Follow makes the inbox talk to the network: whatever else
    is submitted to a known site, no HTTP request is among the events the
    handling adds. *)
Theorem only_follow_uses_the_network cfg env r blog activity st :
  Blogs cfg !! blogParam r = Some blog →
  jsonDecodeActivity env (requestBody r) = Ok activity →
  eqStringIface "Follow" (activity !! "type") = false →
  ∃ new, trace (apHandleInbox cfg env r st).2 = (trace st ++ new)%list
         ∧ Forall (λ ev, isHttp ev = false) new.
Proof.
  intros Hblog Hbody Htype.
  rewrite (inbox_dispatched _ _ _ _ _ _ Hblog Hbody).
  pose proof (dispatch_outside_follow_trace cfg env (blogParam r) blog activity st Htype)
    as Hnew.
  by destruct (dispatch cfg env (blogParam r) blog activity st) as [[[]|] st'].
Qed.

Lemma only_follow_uses_the_network_witness :
  ∃ new,
    trace
      (apHandleInbox Scenario.site
         (Scenario.world (Ok Scenario.undoAlice) (Scenario.ok 200 "{}")
            (Scenario.ok 202 "") (Ok Scenario.alice) None Scenario.noLinks)
         Scenario.toMain Scenario.followed).2
    = (trace Scenario.followed ++ new)%list
    ∧ Forall (λ ev, isHttp ev = false) new.
Proof.
  apply (only_follow_uses_the_network Scenario.site _ Scenario.toMain Scenario.main
           Scenario.undoAlice Scenario.followed);
    reflexivity.
Defined.

(** ** A Follow that goes through *)

Lemma acceptActivity_fields cfg env blog follow :
  acceptActivity cfg env blog follow !! "type" = Some (VStr "Accept")
  ∧ acceptActivity cfg env blog follow !! "object" = Some (VMap (delete "@context" follow))
  ∧ acceptActivity cfg env blog follow !! "actor" = Some (VStr (apIri cfg blog))
  ∧ acceptActivity cfg env blog follow !! "to" = Some (default VNil (follow !! "actor"))
  ∧ acceptActivity cfg env blog follow !! "id"
    = Some (VStr (apIri cfg blog ++ generateRandomString env 16))
  ∧ acceptActivity cfg env blog follow !! "@context" = Some (VStr (asContext cfg)).
Proof.
  unfold acceptActivity.
  rewrite (lookup_delete_ne follow "@context" "actor") by discriminate.
  repeat split;
    repeat (first [ apply lookup_insert_eq | rewrite lookup_insert_ne by discriminate ]).
Qed.

(** X10: a Follow of a known site by an actor other than its object, with
    the actor resolved, the Accept marshalled and signed and the POST
    answered with a success status, is answered 201 and does, in this
    order: the GET for the actor, the upsert of the row (site, resolved
    id, resolved inbox), the signed POST of the Accept to the resolved
    inbox. The Accept has the type Accept, the IRI of the site as actor,
    the actor of the Follow as addressee, an id under the IRI of the site,
    and as object the Follow without its context. *)
Theorem follow_is_accepted
    cfg env r blog follow actor host rsp person body inboxHost signature answer st :
  Blogs cfg !! blogParam r = Some blog →
  jsonDecodeActivity env (requestBody r) = Ok follow →
  eqStringIface "Follow" (follow !! "type") = true →
  follow !! "actor" = Some (VStr actor) →
  eqStringIface actor (follow !! "object") = false →
  urlParse env actor = Ok host →
  clientDo env (actorRequest actor) = (Some rsp, None) →
  apRequestIsSuccess (StatusCode rsp) = true →
  jsonDecodePerson env (ResponseBody rsp) = Ok person →
  jsonMarshal env (VMap (acceptActivity cfg env blog follow)) = Ok body →
  urlParse env (asPerson.Inbox person) = Ok inboxHost →
  signRequest env (apIri cfg blog ++ "#main-key")
    (deliveryRequest env (asPerson.Inbox person) inboxHost body) body = Ok signature →
  clientDo env (withHeaders (deliveryRequest env (asPerson.Inbox person) inboxHost body)
                  signature)
  = (Some answer, None) →
  apRequestIsSuccess (StatusCode answer) = true →
  apHandleInbox cfg env r st
  = (Returned {| status := 201; message := "" |},
     after st
       (match dbExec env (InsertOrReplace (blogParam r) (asPerson.ID person)
                            (asPerson.Inbox person)) with
        | Some _ => None
        | None => Some (InsertOrReplace (blogParam r) (asPerson.ID person)
                          (asPerson.Inbox person))
        end)
       [EvLog ("New follow request: " ++ actor);
        EvHttp (actorRequest actor);
        EvDbExec (InsertOrReplace (blogParam r) (asPerson.ID person)
                    (asPerson.Inbox person))
          (dbExec env (InsertOrReplace (blogParam r) (asPerson.ID person)
                         (asPerson.Inbox person)));
        EvHttp (withHeaders (deliveryRequest env (asPerson.Inbox person) inboxHost body)
                  signature);
        EvLog ("Follower accepted: " ++ asPerson.ID person)])
  ∧ acceptActivity cfg env blog follow !! "type" = Some (VStr "Accept")
  ∧ acceptActivity cfg env blog follow !! "object" = Some (VMap (delete "@context" follow))
  ∧ acceptActivity cfg env blog follow !! "actor" = Some (VStr (apIri cfg blog))
  ∧ acceptActivity cfg env blog follow !! "to" = Some (VStr actor)
  ∧ acceptActivity cfg env blog follow !! "id"
    = Some (VStr (apIri cfg blog ++ generateRandomString env 16)).
Proof.
  intros Hblog Hbody Htype Hactor Hother Hurl Hget Hcode Hperson
         Hmarshal Hinbox Hsign Hpost Hanswer.
  destruct (acceptActivity_fields cfg env blog follow) as (Ht & Ho & Ha & Hto & Hid & _).
  rewrite Hactor in Hto. split; [|done].
  rewrite (inbox_dispatched _ _ _ _ _ _ Hblog Hbody).
  unfold dispatch. rewrite Htype. unfold apAccept. rewrite Hactor. simpl. run.
  rewrite Hother.
  rewrite (apGetRemoteActor_resolved env actor host rsp person _ Hurl Hget Hcode Hperson).
  simpl. unfold apAddFollower. rewrite appDbExec_uniform. simpl.
  unfold apNewID, deref. run. fold (acceptActivity cfg env blog follow).
  rewrite (apSendSigned_delivered cfg env blog _ _ body inboxHost signature
             Hmarshal Hinbox Hsign answer _ Hpost Hanswer).
  simpl. unfold after, record. simpl. by rewrite <- !app_assoc.
Qed.

Lemma follow_is_accepted_witness :
  (apHandleInbox Scenario.site
     (Scenario.world (Ok Scenario.followAlice) (Scenario.ok 200 "{}")
        (Scenario.ok 202 "") (Ok Scenario.alice) None Scenario.noLinks)
     Scenario.toMain Scenario.start).1
  = Returned {| status := 201; message := "" |}.
Proof.
  rewrite (proj1 (follow_is_accepted Scenario.site
      (Scenario.world (Ok Scenario.followAlice) (Scenario.ok 200 "{}")
         (Scenario.ok 202 "") (Ok Scenario.alice) None Scenario.noLinks)
      Scenario.toMain Scenario.main Scenario.followAlice "https://remote/alice"
      "remote" {| StatusCode := 200; ResponseBody := "{}" |} Scenario.alice
      "{}" "remote" [("Signature", "keyId=https://site/blog#main-key")]
      {| StatusCode := 202; ResponseBody := "" |} Scenario.start
      eq_refl eq_refl eq_refl eq_refl eq_refl eq_refl eq_refl eq_refl eq_refl
      eq_refl eq_refl eq_refl eq_refl eq_refl)).
  reflexivity.
Defined.

(** ** The resolver and the delivery, on their own *)

(** X11: when the resolver hands back an actor, it hands back no error; it
    has issued exactly the one GET for the actor IRI, the response came
    with one of the statuses 200, 201, 202 and 204, and the actor is what
    the body of that response decodes to. *)
Theorem apGetRemoteActor_actor_is_resolved env iri p e st st' :
  apGetRemoteActor env iri st = (Returned (Some p, e), st') →
  e = None
  ∧ st' = record st [EvHttp (actorRequest iri)]
  ∧ ∃ rsp, clientDo env (actorRequest iri) = (Some rsp, None)
           ∧ StatusCode rsp ∈ [200; 201; 202; 204]
           ∧ jsonDecodePerson env (ResponseBody rsp) = Ok p.
Proof.
  unfold apGetRemoteActor, Do, deref. run.
  destruct (urlParse env iri); [|discriminate].
  destruct (clientDo env (actorRequest iri)) as [[rsp|] [msg|]] eqn:Hdo;
    try discriminate. simpl.
  destruct (apRequestIsSuccess (StatusCode rsp)) eqn:Hcode; [|discriminate]. simpl.
  destruct (jsonDecodePerson env (ResponseBody rsp)) eqn:Hp; [|discriminate].
  intros [= <- <- <-]. repeat split. exists rsp. repeat split; [|done].
  apply apRequestIsSuccess_spec in Hcode. rewrite !elem_of_cons. tauto.
Qed.

Lemma apGetRemoteActor_actor_is_resolved_witness :
  ∃ rsp, clientDo
           (Scenario.world (Err "EOF") (Scenario.ok 200 "{}") Scenario.unreachable
              (Ok Scenario.alice) None Scenario.noLinks)
           (actorRequest "https://remote/alice") = (Some rsp, None)
         ∧ StatusCode rsp ∈ [200; 201; 202; 204].
Proof.
  destruct (apGetRemoteActor_actor_is_resolved
              (Scenario.world (Err "EOF") (Scenario.ok 200 "{}") Scenario.unreachable
                 (Ok Scenario.alice) None Scenario.noLinks)
              "https://remote/alice" Scenario.alice None Scenario.start
              (record Scenario.start [EvHttp (actorRequest "https://remote/alice")])
              eq_refl) as (_ & _ & rsp & Hdo & Hcode & _).
  exists rsp. by split.
Defined.

(** X12: how a resolution fails. An actor IRI that is no URL is refused
    before any request is made. A GET that fails comes back as an error of
    the network-failure class. A response with a success status whose body
    does not decode comes back as an error of the parse-failure class. In
    none of these cases is an actor handed back. *)
Theorem apGetRemoteActor_failures env iri st :
  (∀ msg, urlParse env iri = Err msg →
     apGetRemoteActor env iri st = (Returned (None, Some (UrlError msg)), st))
  ∧ (∀ host rsp msg,
       urlParse env iri = Ok host →
       clientDo env (actorRequest iri) = (rsp, Some msg) →
       ∃ e, apGetRemoteActor env iri st
            = (Returned (None, Some e), record st [EvHttp (actorRequest iri)])
            ∧ classOf e = NetworkFailure)
  ∧ (∀ host rsp msg,
       urlParse env iri = Ok host →
       clientDo env (actorRequest iri) = (Some rsp, None) →
       apRequestIsSuccess (StatusCode rsp) = true →
       jsonDecodePerson env (ResponseBody rsp) = Err msg →
       ∃ e, apGetRemoteActor env iri st
            = (Returned (None, Some e), record st [EvHttp (actorRequest iri)])
            ∧ classOf e = ParseFailure).
Proof.
  repeat split.
  - intros msg Hurl. unfold apGetRemoteActor. by rewrite Hurl.
  - intros host rsp msg Hurl Hdo. eexists. split;
      [by apply (apGetRemoteActor_unreachable env iri host rsp) | reflexivity].
  - intros host rsp msg Hurl Hdo Hcode Hp. exists (DecodeError msg). split; [|reflexivity].
    unfold apGetRemoteActor, Do, deref. rewrite Hurl. run.
    rewrite Hdo. simpl. rewrite Hcode. simpl. rewrite Hp. reflexivity.
Qed.

(** X13: a delivery sends nothing or exactly one request, and a request it
    sends is signed: it is the POST to the inbox given, with the marshalled
    activity as body, the federation media type as content type, the host
    of the inbox as Host header, and the headers the signer made for the
    key of the site after these. *)
Theorem apSendSigned_sends_signed_only cfg env blog activity to st :
  (apSendSigned cfg env blog activity to st).2 = st
  ∨ ∃ b body host signature,
      blog = Some b
      ∧ jsonMarshal env activity = Ok body
      ∧ urlParse env to = Ok host
      ∧ signRequest env (apIri cfg b ++ "#main-key") (deliveryRequest env to host body) body
        = Ok signature
      ∧ (apSendSigned cfg env blog activity to st).2
        = record st [EvHttp (withHeaders (deliveryRequest env to host body) signature)]
      ∧ Method (deliveryRequest env to host body) = "POST"
      ∧ URL (deliveryRequest env to host body) = to
      ∧ Body (deliveryRequest env to host body) = body
      ∧ ("Content-Type", "application/activity+json; charset=utf-8")
        ∈ Header (deliveryRequest env to host body)
      ∧ ("Host", host) ∈ Header (deliveryRequest env to host body)
      ∧ Header (withHeaders (deliveryRequest env to host body) signature)
        = (Header (deliveryRequest env to host body) ++ signature)%list.
Proof.
  unfold apSendSigned, Do, deref.
  destruct (jsonMarshal env activity) as [body|]; [|by left].
  destruct (urlParse env to) as [host|]; [|by left].
  destruct blog as [b|]; [|by left]. run.
  destruct (signRequest env (apIri cfg b ++ "#main-key")
              (deliveryRequest env to host body) body) as [signature|] eqn:Hsign;
    [|by left].
  right. exists b, body, host, signature.
  split_and!; try done.
  - destruct (clientDo env (withHeaders (deliveryRequest env to host body) signature))
      as [[rsp|] e]; simpl; [|reflexivity].
    by destruct (apRequestIsSuccess _).
  - simpl. rewrite !elem_of_cons. tauto.
  - simpl. rewrite !elem_of_cons. tauto.
Qed.

(** X14: a delivery whose activity does not marshal, whose inbox is no URL
    or whose request the signer refuses returns the error of its class
    (serialization, invalid target, signing) and sends nothing. *)
Theorem apSendSigned_fails_before_sending cfg env b activity to st :
  (∀ msg, jsonMarshal env activity = Err msg →
     apSendSigned cfg env (Some b) activity to st = (Returned (Some (MarshalError msg)), st))
  ∧ (∀ body msg,
       jsonMarshal env activity = Ok body →
       urlParse env to = Err msg →
       apSendSigned cfg env (Some b) activity to st = (Returned (Some (UrlError msg)), st))
  ∧ (∀ body host msg,
       jsonMarshal env activity = Ok body →
       urlParse env to = Ok host →
       signRequest env (apIri cfg b ++ "#main-key") (deliveryRequest env to host body) body
       = Err msg →
       apSendSigned cfg env (Some b) activity to st
       = (Returned (Some (SigningError msg)), st)).
Proof.
  unfold apSendSigned, deref. repeat split.
  - by intros msg ->.
  - by intros body msg -> ->.
  - intros body host msg -> -> Hsign. run. by rewrite Hsign.
Qed.

Lemma apGetRemoteActor_failures_witness :
  ∃ e, apGetRemoteActor
         (Scenario.world (Err "EOF") Scenario.unreachable Scenario.unreachable
            (Err "EOF") None Scenario.noLinks)
         "https://remote/alice" Scenario.start
       = (Returned (None, Some e),
          record Scenario.start [EvHttp (actorRequest "https://remote/alice")])
       ∧ classOf e = NetworkFailure.
Proof.
  apply (proj1 (proj2 (apGetRemoteActor_failures
           (Scenario.world (Err "EOF") Scenario.unreachable Scenario.unreachable
              (Err "EOF") None Scenario.noLinks)
           "https://remote/alice" Scenario.start))
         "remote" None "dial tcp: connection refused");
    reflexivity.
Defined.

Lemma apSendSigned_fails_before_sending_witness :
  apSendSigned Scenario.site
    {| jsonDecodeActivity := fun _ => Err "EOF";
       jsonDecodePerson := fun _ => Err "EOF";
       jsonMarshal := fun _ => Ok "{}";
       urlParse := fun _ => Err "missing protocol scheme";
       clientDo := fun _ => Scenario.unreachable;
       signRequest := fun _ _ _ => Err "no key";
       dbExec := fun _ => None;
       dbQuery := fun _ => None;
       dbRows := fun _ => {| rowPicks := []; nextStops := fun _ => false;
                             scanFails := fun _ => None |};
       rangePicks := [];
       DocumentFromReader := fun _ _ => Scenario.noLinks;
       generateRandomString := fun _ => "";
       now := "" |}
    (Some Scenario.main) VNil "remote/alice/inbox" Scenario.start
  = (Returned (Some (UrlError "missing protocol scheme")), Scenario.start).
Proof.
  apply (proj1 (proj2 (apSendSigned_fails_before_sending Scenario.site _
           Scenario.main VNil "remote/alice/inbox" Scenario.start)) "{}");
    reflexivity.
Defined.

(** ** The registry: listing, adding, removing *)

Lemma followersOf_rows blog rows follower inbox :
  (follower, inbox)
  ∈ omap (fun row : string * string * string =>
            if bool_decide (row.1.1 = blog) then Some (row.1.2, row.2) else None)
         (map_to_list rows)
  ↔ rows !! (blog, follower) = Some inbox.
Proof.
  rewrite list_elem_of_omap. split.
  - intros ([[b f] i] & Hin & Hrow). apply elem_of_map_to_list in Hin. simpl in Hrow.
    case_bool_decide; simplify_eq. done.
  - intros Hrow. exists ((blog, follower), inbox). split.
    + by apply elem_of_map_to_list.
    + simpl. by rewrite bool_decide_eq_true_2.
Qed.

(** The listing of a site holds a follower exactly with the inbox of its
    row. *)
Lemma followersOf_lookup blog rows follower :
  followersOf blog rows !! follower = rows !! (blog, follower).
Proof.
  unfold followersOf.
  destruct (list_to_map _ !! follower) as [inbox|] eqn:Hlisted.
  - apply elem_of_list_to_map_2 in Hlisted. symmetry. by apply followersOf_rows.
  - apply not_elem_of_list_to_map_2 in Hlisted.
    destruct (rows !! (blog, follower)) as [inbox|] eqn:Hrow; [|done].
    exfalso. apply Hlisted. apply list_elem_of_fmap.
    exists (follower, inbox). split; [done|]. by apply followersOf_rows.
Qed.







(** ** The fan-out *)

Lemma inboxes_listed (listed : gmap string string) inbox :
  inbox ∈ inboxes listed ↔ ∃ follower, listed !! follower = Some inbox.
Proof.
  unfold inboxes. rewrite list_elem_of_fmap. split.
  - intros ([f i] & -> & Hin). exists f. by apply elem_of_map_to_list.
  - intros (f & Hf). exists (f, inbox). split; [done|]. by apply elem_of_map_to_list.
Qed.

(** X17: with the store answering the query, a fan-out changes nothing in
    the registry, sends nothing itself and does one of two things. Either
    [rows.Scan] failed on a row: then it logs the failure and starts no
    delivery. Or it starts detached deliveries of the activity, one for
    each follower that was read and to the inbox of that follower, in no
    given order, and none to anybody who is not a follower of the site.
    When no row is given up on or fails to scan, an inbox is delivered to
    exactly when a row of the site has it, and there are as many
    deliveries as the site has followers. *)
Theorem fan_out_reaches_the_followers_of_the_site cfg env blog activity st :
  dbQuery env blog = None →
  ∃ events,
    apSendToAllFollowers cfg env blog activity st
    = (Returned tt, record st (EvDbQuery blog None :: events))
    ∧ ((∃ i msg, scanFails (dbRows env blog) i = Some msg
                 ∧ events = [EvLog ("Failed to retrieve followers: " ++ msg)])
       ∨ ∃ listed targets,
           events = map (EvGo (Blogs cfg !! blog) activity) targets
           ∧ targets ≡ₚ inboxes listed
           ∧ ∀ follower inbox,
               listed !! follower = Some inbox
               → followers st !! (blog, follower) = Some inbox)
    ∧ (readsAll (dbRows env blog) (size (followersOf blog (followers st))) →
       ∃ targets,
         events = map (EvGo (Blogs cfg !! blog) activity) targets
         ∧ (∀ inbox, inbox ∈ targets
                     ↔ ∃ follower, followers st !! (blog, follower) = Some inbox)
         ∧ length targets = size (followersOf blog (followers st))).
Proof.
  intros Hquery.
  destruct (scanRows (dbRows env blog) 0
              (inOrder (rowPicks (dbRows env blog))
                 (map_to_list (followersOf blog (followers st)))) ∅)
    as [listed err] eqn:Hscan.
  assert (∃ events,
             apSendToAllFollowers cfg env blog activity st
             = (Returned tt, record st (EvDbQuery blog None :: events))
             ∧ events = match err with
                        | Some e => [EvLog ("Failed to retrieve followers: " ++ Error e)]
                        | None => map (EvGo (Blogs cfg !! blog) activity) (ranged env listed)
                        end) as (events & Hrun & Hevents).
  { unfold apSendToAllFollowers, apGetAllFollowers. run. rewrite Hquery. simpl.
    rewrite Hscan. destruct err as [e|].
    - run. eexists. split; [|reflexivity]. unfold record. simpl.
      by rewrite <- app_assoc.
    - rewrite apSendTo_run. eexists. split; [|reflexivity]. unfold record. simpl.
      by rewrite <- app_assoc. }
  exists events. split; [exact Hrun|]. split.
  - destruct err as [e|].
    + left. destruct (proj2 (scanRows_sub _ _ _ _ _ _ Hscan) e eq_refl)
        as (_ & i & msg & Hfails & ->).
      by exists i, msg.
    + right. exists listed, (ranged env listed). split; [done|].
      split; [apply ranged_inboxes|].
      intros follower inbox Hlisted. rewrite <- followersOf_lookup.
      by apply (lookup_weaken _ _ _ _ Hlisted), (scanRows_listing _ _ _ _ _ Hscan).
  - intros Hread. rewrite (scanRows_of_map _ _ _ Hread) in Hscan. simplify_eq.
    eexists. split; [reflexivity|]. split.
    + intros inbox. rewrite ranged_inboxes, inboxes_listed.
      split; intros (f & Hf); exists f; by rewrite followersOf_lookup in *.
    + rewrite (Permutation_length (ranged_inboxes _ _)).
      unfold inboxes. rewrite length_fmap. apply length_map_to_list.
Qed.

Lemma fan_out_reaches_the_followers_of_the_site_witness :
  ∃ targets,
    apSendToAllFollowers Scenario.site
      (Scenario.world (Err "EOF") Scenario.unreachable Scenario.unreachable
         (Err "EOF") None Scenario.noLinks)
      "main" VNil Scenario.followed
    = (Returned tt,
       record Scenario.followed
         (EvDbQuery "main" None :: map (EvGo (Some Scenario.main) VNil) targets))
    ∧ length targets = 1%nat.
Proof.
  destruct (fan_out_reaches_the_followers_of_the_site Scenario.site
              (Scenario.world (Err "EOF") Scenario.unreachable Scenario.unreachable
                 (Err "EOF") None Scenario.noLinks)
              "main" VNil Scenario.followed eq_refl) as (events & Hrun & _ & Hall).
  destruct Hall as (targets & -> & _ & Hlen); [intros i _; split; reflexivity|].
  exists targets. split; [exact Hrun|]. rewrite Hlen. reflexivity.
Defined.

(** X18: when the store fails the query for the followers, the fan-out
    logs the failure and starts no delivery. *)
Theorem fan_out_gives_up_without_followers cfg env blog activity msg st :
  dbQuery env blog = Some msg →
  apSendToAllFollowers cfg env blog activity st
  = (Returned tt,
     record st [EvDbQuery blog (Some msg);
                EvLog ("Failed to retrieve followers: " ++ msg)]).
Proof.
  intros Hquery. unfold apSendToAllFollowers, apGetAllFollowers. run.
  rewrite Hquery. run. unfold record. simpl. by rewrite <- app_assoc.
Qed.

Lemma fan_out_gives_up_without_followers_witness :
  apSendToAllFollowers Scenario.site
    {| jsonDecodeActivity := fun _ => Err "EOF";
       jsonDecodePerson := fun _ => Err "EOF";
       jsonMarshal := fun _ => Ok "{}";
       urlParse := fun _ => Ok "remote";
       clientDo := fun _ => Scenario.unreachable;
       signRequest := fun _ _ _ => Ok [];
       dbExec := fun _ => None;
       dbQuery := fun _ => Some "database is locked";
       dbRows := fun _ => {| rowPicks := []; nextStops := fun _ => false;
                             scanFails := fun _ => None |};
       rangePicks := [];
       DocumentFromReader := fun _ _ => Scenario.noLinks;
       generateRandomString := fun _ => "";
       now := "" |}
    "main" VNil Scenario.followed
  = (Returned tt,
     record Scenario.followed
       [EvDbQuery "main" (Some "database is locked");
        EvLog "Failed to retrieve followers: database is locked"]).
Proof.
  apply (fan_out_gives_up_without_followers Scenario.site _ "main" VNil
           "database is locked" Scenario.followed).
  reflexivity.
Defined.

(** ** The content hooks, beyond the guard *)

(** With federation disabled, none of the three hooks does anything,
    whatever the content item. *)
Lemma hooks_do_nothing_when_disabled cfg env p st :
  ActivityPubEnabled cfg = false →
  apPost cfg env p st = (Returned tt, st)
  ∧ apUpdate cfg env p st = (Returned tt, st)
  ∧ apDelete cfg env p st = (Returned tt, st).
Proof.
  intros Hoff. unfold apPost, apUpdate, apDelete. rewrite Hoff. by repeat split.
Qed.

(** X19: with federation enabled, the publish hook run for a content item
    that has a publish timestamp and a section, on a configured blog whose
    follower rows are read, all of them, starts one delivery per follower
    inbox of the blog, in no given order, all of the same Create activity:
    its id is the public address followed by the path of the item, its
    actor the IRI of the blog, its published field the one of the note and
    its object the note. The update hook does the same with an Update
    activity, which has no published field. *)
Theorem publish_and_update_fan_out_the_note cfg env p blog st :
  ActivityPubEnabled cfg = true →
  post.Published p ≠ "" →
  firstParameter p "section" ≠ "" →
  Blogs cfg !! post.Blog p = Some blog →
  dbQuery env (post.Blog p) = None →
  readsAll (dbRows env (post.Blog p)) (size (followersOf (post.Blog p) (followers st))) →
  (∃ activity targets,
     apPost cfg env p st
     = (Returned tt,
        record st (EvDbQuery (post.Blog p) None
                   :: map (EvGo (Some blog) (VMap activity)) targets))
     ∧ targets ≡ₚ inboxes (followersOf (post.Blog p) (followers st))
     ∧ activity !! "type" = Some (VStr "Create")
     ∧ activity !! "id" = Some (VStr (PublicAddress cfg ++ post.Path p))
     ∧ activity !! "actor" = Some (VStr (apIri cfg blog))
     ∧ activity !! "published" = Some (VStr (asNote.Published (toASNote cfg p)))
     ∧ activity !! "object" = Some (asNote.object (toASNote cfg p)))
  ∧ (∃ activity targets,
       apUpdate cfg env p st
       = (Returned tt,
          record st (EvDbQuery (post.Blog p) None
                     :: map (EvGo (Some blog) (VMap activity)) targets))
       ∧ targets ≡ₚ inboxes (followersOf (post.Blog p) (followers st))
       ∧ activity !! "type" = Some (VStr "Update")
       ∧ activity !! "id" = Some (VStr (PublicAddress cfg ++ post.Path p))
       ∧ activity !! "actor" = Some (VStr (apIri cfg blog))
       ∧ activity !! "published" = None
       ∧ activity !! "object" = Some (asNote.object (toASNote cfg p))).
Proof.
  intros Hon Hpublished Hsection Hblog Hquery Hread.
  assert (bool_decide (post.Published p = "")
          || bool_decide (firstParameter p "section" = "") = false) as Hguard.
  { by rewrite !bool_decide_eq_false_2. }
  split.
  - unfold apPost, blogIriOf, deref. rewrite Hon, Hguard, Hblog. run.
    eexists. exists (ranged env (followersOf (post.Blog p) (followers st))).
    rewrite (apSendToAllFollowers_run _ _ _ _ _ Hquery Hread), Hblog.
    split; [reflexivity|]. split; [apply ranged_inboxes|].
    repeat split;
      repeat (first [ apply lookup_insert_eq | rewrite lookup_insert_ne by discriminate ]).
  - unfold apUpdate, blogIriOf, deref. rewrite Hon, Hguard, Hblog. run.
    eexists. exists (ranged env (followersOf (post.Blog p) (followers st))).
    rewrite (apSendToAllFollowers_run _ _ _ _ _ Hquery Hread), Hblog.
    split; [reflexivity|]. split; [apply ranged_inboxes|].
    repeat split;
      repeat (first [ apply lookup_insert_eq | rewrite lookup_insert_ne by discriminate
                    | apply lookup_empty ]).
Qed.

Lemma publish_and_update_fan_out_the_note_witness :
  ∃ activity,
    apPost Scenario.site
      (Scenario.world (Err "EOF") Scenario.unreachable Scenario.unreachable
         (Err "EOF") None Scenario.noLinks)
      {| post.Path := "/blog/posts/42"; post.Published := "2026-10-31T12:00:00Z";
         post.Parameters := {[ "section" := ["posts"] ]}; post.Blog := "main" |}
      Scenario.followed
    = (Returned tt,
       record Scenario.followed
         [EvDbQuery "main" None;
          EvGo (Some Scenario.main) (VMap activity) "https://remote/alice/inbox"])
    ∧ activity !! "id" = Some (VStr "https://site/blog/posts/42").
Proof.
  destruct (publish_and_update_fan_out_the_note Scenario.site
      (Scenario.world (Err "EOF") Scenario.unreachable Scenario.unreachable
         (Err "EOF") None Scenario.noLinks)
      {| post.Path := "/blog/posts/42"; post.Published := "2026-10-31T12:00:00Z";
         post.Parameters := {[ "section" := ["posts"] ]}; post.Blog := "main" |}
      Scenario.main Scenario.followed)
    as [(activity & targets & Hrun & Htargets & _ & Hid & _) _];
    [reflexivity | discriminate | discriminate | reflexivity | reflexivity
    | intros i _; split; reflexivity |].
  exists activity. split; [|exact Hid].
  match type of Htargets with
  | _ ≡ₚ ?all =>
      assert (all = ["https://remote/alice/inbox"]) as Hall
        by (vm_compute; reflexivity);
      rewrite Hall in Htargets
  end.
  apply Permutation_singleton_r in Htargets.
  rewrite Hrun, Htargets. vm_compute. reflexivity.
Defined.

(** X20: with federation enabled, a hook run for a content item whose blog
    is not among the configured blogs panics, reading the IRI of a blog
    that is not there, before anything is read from the store or sent: the
    delete hook for every item, the publish and the update hook for every
    item with a publish timestamp and a section. *)
Theorem hooks_panic_on_unconfigured_blog cfg env p st :
  ActivityPubEnabled cfg = true →
  Blogs cfg !! post.Blog p = None →
  apDelete cfg env p st = (Panicked, st)
  ∧ (post.Published p ≠ "" →
     firstParameter p "section" ≠ "" →
     apPost cfg env p st = (Panicked, st) ∧ apUpdate cfg env p st = (Panicked, st)).
Proof.
  intros Hon Hblog. split.
  - unfold apDelete, blogIriOf, deref. by rewrite Hon, Hblog.
  - intros Hpublished Hsection.
    unfold apPost, apUpdate, blogIriOf, deref.
    rewrite Hon, Hblog, !bool_decide_eq_false_2 by done. by split.
Qed.

Lemma hooks_panic_on_unconfigured_blog_witness :
  apDelete Scenario.site
    (Scenario.world (Err "EOF") Scenario.unreachable Scenario.unreachable
       (Err "EOF") None Scenario.noLinks)
    {| post.Path := "/photos/1"; post.Published := ""; post.Parameters := ∅;
       post.Blog := "photos" |}
    Scenario.followed
  = (Panicked, Scenario.followed).
Proof.
  apply (hooks_panic_on_unconfigured_blog Scenario.site
           (Scenario.world (Err "EOF") Scenario.unreachable Scenario.unreachable
              (Err "EOF") None Scenario.noLinks)
           {| post.Path := "/photos/1"; post.Published := ""; post.Parameters := ∅;
              post.Blog := "photos" |}
           Scenario.followed);
    reflexivity.
Defined.

(** ** Account discovery *)

Lemma stripPrefix_app prefix rest : stripPrefix prefix (prefix ++ rest) = Some rest.
Proof.
  induction prefix as [|c prefix IH]; simpl; [by destruct rest|].
  by rewrite bool_decide_eq_true_2.
Qed.

Lemma length_app_string (a b : string) :
  String.length (a ++ b) = (String.length a + String.length b)%nat.
Proof. induction a as [|c a IH]; simpl; [done | by rewrite IH]. Qed.

Lemma stripSuffix_unfold suffix s :
  stripSuffix suffix s
  = if bool_decide (s = suffix) then Some ""
    else match s with
         | EmptyString => None
         | String c s' => String c <$> stripSuffix suffix s'
         end.
Proof. by destruct s. Qed.

Lemma stripSuffix_app suffix name : stripSuffix suffix (name ++ suffix) = Some name.
Proof.
  induction name as [|c name IH]; rewrite stripSuffix_unfold.
  - by rewrite bool_decide_eq_true_2.
  - rewrite bool_decide_eq_false_2.
    + change (String c name ++ suffix) with (String c (name ++ suffix)).
      cbv beta iota. by rewrite IH.
    + intros Heq. apply (f_equal String.length) in Heq.
      rewrite length_app_string in Heq. simpl in Heq. lia.
Qed.

Lemma accountName_of_account domain name :
  hasLineFeed name = false →
  accountName domain ("acct:" ++ name ++ "@" ++ domain) = name.
Proof.
  intros Hname. unfold accountName.
  rewrite (stripPrefix_app "acct:" (name ++ "@" ++ domain)).
  rewrite (stripSuffix_app ("@" ++ domain) name). by rewrite Hname.
Qed.

(** X21: asked for the account of a configured blog on the domain of the
    server, [acct:], the name, an at sign and the domain, the webfinger
    handler answers 200 with a document of the type application/jrd+json
    whose subject is the resource asked for and whose one link is the self
    link, of the federation media type, to the IRI of the blog. *)
Theorem webfinger_finds_the_account cfg domain name blog :
  Blogs cfg !! name = Some blog →
  hasLineFeed name = false →
  apHandleWebfinger cfg domain None ("acct:" ++ name ++ "@" ++ domain)
  = {| code := 200;
       mediaType := "application/jrd+json; charset=utf-8";
       body := Json (VMap {[
         "subject" := VStr ("acct:" ++ name ++ "@" ++ domain);
         "links" := VArr [VMap {[ "rel" := VStr "self";
                                  "type" := VStr "application/activity+json";
                                  "href" := VStr (apIri cfg blog) ]}] ]}) |}.
Proof.
  intros Hblog Hname. unfold apHandleWebfinger.
  rewrite (accountName_of_account domain name Hname), Hblog. reflexivity.
Qed.

Lemma webfinger_finds_the_account_witness :
  code (apHandleWebfinger Scenario.site "site.example" None "acct:main@site.example")
  = 200.
Proof.
  exact (f_equal code
           (webfinger_finds_the_account Scenario.site "site.example" "main" Scenario.main
              eq_refl eq_refl)).
Defined.

(** X22: a resource that is not of the account form for the domain of the
    server is looked up among the blogs as it stands: the bare name of a
    configured blog is answered like its account, with the account as
    subject; a resource that names no blog, the account of a blog on
    another domain say, is answered 404. When the expression does not
    compile, every resource is answered 500. *)
Theorem webfinger_takes_other_resources_as_names cfg domain resource :
  stripPrefix "acct:" resource = None →
  (∀ blog, Blogs cfg !! resource = Some blog →
     code (apHandleWebfinger cfg domain None resource) = 200
     ∧ ∃ links, body (apHandleWebfinger cfg domain None resource)
                = Json (VMap {[ "subject" := VStr ("acct:" ++ resource ++ "@" ++ domain);
                                "links" := links ]}))
  ∧ (Blogs cfg !! resource = None →
     apHandleWebfinger cfg domain None resource = httpError "Not found" 404)
  ∧ ∀ msg, apHandleWebfinger cfg domain (Some msg) resource = httpError msg 500.
Proof.
  intros Hform. unfold apHandleWebfinger, accountName. rewrite Hform.
  split; [|split].
  - intros blog ->. split; [reflexivity|]. eexists. reflexivity.
  - by intros ->.
  - reflexivity.
Qed.

Lemma webfinger_takes_other_resources_as_names_witness :
  code (apHandleWebfinger Scenario.site "site.example" None "main") = 200.
Proof.
  apply (proj1 (webfinger_takes_other_resources_as_names Scenario.site "site.example"
                  "main" eq_refl) Scenario.main).
  reflexivity.
Defined.

(** ** Text utilities *)

Lemma append_String c (a b : string) : String c a ++ b = String c (a ++ b).
Proof. reflexivity. Qed.

Lemma wrapInt_in_range z : - 2 ^ 63 ≤ z < 2 ^ 63 → wrapInt z = z.
Proof. intros Hz. unfold wrapInt. rewrite Z.mod_small; lia. Qed.

Lemma wrapInt_below : wrapInt (- 2 ^ 63 - 1) = 2 ^ 63 - 1.
Proof. reflexivity. Qed.

Lemma sentenceEnds_bounds s : 0 ≤ sentenceEnds s ≤ Z.of_nat (String.length s).
Proof.
  induction s as [|c s IH]; simpl String.length; cbn [sentenceEnds]; [lia|].
  destruct (endsSentence c); lia.
Qed.

(** X23: what [firstSentences] hands back is a beginning of the text it
    was given, for every count. *)
Theorem firstSentences_is_a_beginning value count :
  ∃ rest, value = firstSentences value count ++ rest.
Proof.
  revert count. induction value as [|c value IH]; intros count.
  - by exists "".
  - cbn [firstSentences]. destruct (endsSentence c).
    + cbv zeta. destruct (wrapInt (count - 1) =? 0).
      * by exists value.
      * destruct (IH (wrapInt (count - 1))) as [rest Hrest]. exists rest.
        rewrite append_String. by rewrite <- Hrest.
    + destruct (IH count) as [rest Hrest]. exists rest.
      rewrite append_String. by rewrite <- Hrest.
Qed.

(** X24: with a count of zero or less, or with a count above the number of
    sentence ends in the text, [firstSentences] hands back the whole text
    (a text shorter than [2^63] bytes and a count that is a Go int): it
    cuts only at the sentence end that brings the count down to zero. *)
Theorem firstSentences_whole_text value count :
  Z.of_nat (String.length value) < 2 ^ 63 →
  - 2 ^ 63 ≤ count < 2 ^ 63 →
  count ≤ 0 ∨ sentenceEnds value < count →
  firstSentences value count = value.
Proof.
  revert count. induction value as [|c value IH]; intros count Hlen Hint Hcount;
    [reflexivity|].
  cbn [firstSentences]. cbn [sentenceEnds] in Hcount. simpl String.length in Hlen.
  pose proof (sentenceEnds_bounds value) as Hbounds.
  destruct (endsSentence c).
  - cbv zeta. destruct (decide (count = - 2 ^ 63)) as [-> | Hmin].
    + change (wrapInt (- 2 ^ 63 - 1)) with (2 ^ 63 - 1).
      destruct (2 ^ 63 - 1 =? 0) eqn:Hz; [apply Z.eqb_eq in Hz; lia|].
      rewrite IH; [reflexivity | lia | lia | lia].
    + rewrite wrapInt_in_range by lia.
      destruct (count - 1 =? 0) eqn:Hz; [apply Z.eqb_eq in Hz; lia|].
      rewrite IH; [reflexivity | lia | lia | lia].
  - rewrite IH; [reflexivity | lia | lia | lia].
Qed.

Lemma firstSentences_whole_text_witness :
  firstSentences "One. Two! Three?" 0 = "One. Two! Three?"
  ∧ firstSentences "One. Two! Three?" 4 = "One. Two! Three?".
Proof.
  split; apply firstSentences_whole_text; simpl; lia.
Defined.

(** X25: with a count from one up to the number of sentence ends in the
    text, [firstSentences] hands back the text up to and including the
    sentence end of that number: what it hands back ends with a sentence
    end and holds exactly count of them. *)
Theorem firstSentences_cuts_after_count value count :
  1 ≤ count ≤ sentenceEnds value →
  count < 2 ^ 63 →
  sentenceEnds (firstSentences value count) = count
  ∧ ∃ before c, firstSentences value count = before ++ String c ""
                ∧ endsSentence c = true.
Proof.
  revert count. induction value as [|c value IH]; intros count Hcount Hint.
  - simpl in Hcount. lia.
  - cbn [firstSentences]. cbn [sentenceEnds] in Hcount.
    destruct (endsSentence c) eqn:Hc.
    + cbv zeta. rewrite wrapInt_in_range by lia.
      destruct (count - 1 =? 0) eqn:Hz.
      * apply Z.eqb_eq in Hz. split.
        -- cbn [sentenceEnds]. rewrite Hc. lia.
        -- by exists "", c.
      * apply Z.eqb_neq in Hz.
        destruct (IH (count - 1)) as (Hn & before & c' & Heq & Hc'); [lia | lia |].
        split.
        -- cbn [sentenceEnds]. rewrite Hc, Hn. lia.
        -- exists (String c before), c'. split; [|done].
           rewrite append_String. by rewrite <- Heq.
    + destruct (IH count) as (Hn & before & c' & Heq & Hc'); [lia | lia |].
      split.
      * cbn [sentenceEnds]. rewrite Hc, Hn. lia.
      * exists (String c before), c'. split; [|done].
        rewrite append_String. by rewrite <- Heq.
Qed.

Lemma firstSentences_cuts_after_count_witness :
  sentenceEnds (firstSentences "One. Two! Three?" 2) = 2
  ∧ ∃ before c, firstSentences "One. Two! Three?" 2 = before ++ String c ""
                ∧ endsSentence c = true.
Proof.
  apply firstSentences_cuts_after_count; simpl; lia.
Defined.

Lemma urlizeLowered_alphabet s :
  everyByte (fun c => isLower c || isUpper c || isDigit c || bool_decide (c = "-"%char))
    (urlizeLowered s) = true.
Proof.
  induction s as [|c s IH]; [reflexivity|]. cbn [urlizeLowered].
  destruct (isLower c || isUpper c || isDigit c) eqn:Hc.
  - cbn [everyByte]. by rewrite Hc, IH.
  - destruct (bool_decide (c = " "%char)); [|exact IH].
    cbn [everyByte]. by rewrite IH.
Qed.

Lemma urlizeLowered_no_upper s :
  everyByte (fun c => negb (isUpper c)) s = true →
  everyByte (fun c => negb (isUpper c)) (urlizeLowered s) = true.
Proof.
  induction s as [|c s IH]; [done|]. cbn [everyByte urlizeLowered].
  intros [Hc Hs]%andb_true_iff.
  destruct (isLower c || isUpper c || isDigit c).
  - cbn [everyByte]. by rewrite Hc, IH.
  - destruct (bool_decide (c = " "%char)); [|by apply IH].
    cbn [everyByte]. by rewrite IH.
Qed.

Lemma everyByte_both ok ok' s :
  everyByte ok s = true → everyByte ok' s = true →
  everyByte (fun c => ok c && ok' c) s = true.
Proof.
  induction s as [|c s IH]; [done|]. cbn [everyByte].
  intros [-> Hs]%andb_true_iff [-> Hs']%andb_true_iff. by rewrite IH.
Qed.

Lemma everyByte_weaken (ok ok' : Ascii.ascii → bool) s :
  (∀ c, ok c = true → ok' c = true) →
  everyByte ok s = true → everyByte ok' s = true.
Proof.
  intros Himp. induction s as [|c s IH]; [done|]. cbn [everyByte].
  intros [Hc Hs]%andb_true_iff. by rewrite (Himp c Hc), IH.
Qed.

(** X26: whatever the text, [urlize] hands back letters, digits and
    hyphens only, each hyphen standing for a space; and with a lowering
    that leaves no capital letter from A to Z, as [strings.ToLower] does,
    small letters from a to z, digits and hyphens only. *)
Theorem urlize_alphabet ToLower str :
  everyByte (fun c => isLower c || isUpper c || isDigit c || bool_decide (c = "-"%char))
    (urlize ToLower str) = true
  ∧ (everyByte (fun c => negb (isUpper c)) (ToLower str) = true →
     everyByte (fun c => isLower c || isDigit c || bool_decide (c = "-"%char))
       (urlize ToLower str) = true).
Proof.
  unfold urlize. split; [apply urlizeLowered_alphabet|]. intros Hlow.
  eapply everyByte_weaken;
    [|exact (everyByte_both _ _ _ (urlizeLowered_alphabet (ToLower str))
               (urlizeLowered_no_upper _ Hlow))].
  intros c. simpl.
  by destruct (isLower c), (isUpper c), (isDigit c), (bool_decide (c = "-"%char)).
Qed.

Lemma urlize_alphabet_witness :
  urlize lowerASCII "Hello, World 2026" = "hello-world-2026"
  ∧ everyByte (fun c => isLower c || isDigit c || bool_decide (c = "-"%char))
      (urlize lowerASCII "Hello, World 2026") = true.
Proof.
  split; [reflexivity|].
  apply (urlize_alphabet lowerASCII "Hello, World 2026"). reflexivity.
Defined.

Lemma stripSuffix_Some suffix s rest :
  stripSuffix suffix s = Some rest → s = rest ++ suffix.
Proof.
  revert rest. induction s as [|c s IH]; intros rest; rewrite stripSuffix_unfold;
    case_bool_decide as Heq.
  - intros [= <-]. exact Heq.
  - discriminate.
  - intros [= <-]. exact Heq.
  - destruct (stripSuffix suffix s) as [r|]; [|discriminate].
    intros [= <-]. rewrite append_String. by rewrite <- (IH r eq_refl).
Qed.

(** X27: [trimSlash] takes one slash off the end of a path that has more
    than that slash: a path that ends with a slash after something else
    comes back without that one slash, the root path and the empty path
    come back as they are, and so does every path that does not end with
    a slash. *)
Theorem trimSlash_takes_one_slash_off s :
  (∀ before, before ≠ "" → trimSlash (before ++ "/") = before)
  ∧ trimSlash "/" = "/"
  ∧ trimSlash "" = ""
  ∧ ((∀ before, s ≠ before ++ "/") → trimSlash s = s).
Proof.
  split; [|split; [reflexivity | split; [reflexivity|]]].
  - intros before Hne. unfold trimSlash, TrimSuffix.
    rewrite stripSuffix_app, length_app_string.
    destruct before; [done|]. simpl String.length.
    destruct (1 <? _) eqn:Hlen; [done|]. apply Z.ltb_ge in Hlen. lia.
  - intros Hnone. unfold trimSlash, TrimSuffix.
    destruct (stripSuffix "/" s) as [before|] eqn:Hstrip; [|by destruct (1 <? _)].
    apply stripSuffix_Some in Hstrip. by destruct (Hnone before).
Qed.
